(** * Student Performance Predictor: threshold resolution, threshold update,
      retraining and batch prediction

    A shallow embedding of [backend/app/main.py] and [backend/app/ml/train.py].

    The Python code is embedded as pure functions over an explicit world:
    the process environment (one variable, [PRED_THRESHOLD]), the metadata
    file, the model file and the data set file.  Raising is a result value;
    [try]/[except] is a handler that tests the class of the raised exception
    against the class hierarchy, as Python does.

    Calls into libraries are embedded by what they return, as CPython 3.11
    on a POSIX system with its default limits does them:
    - [float(str)], [float(int)], chained comparison of floats: on IEEE-754
      binary64 values ([spec_float] at precision 53); a [str] is held as its
      UTF-8 bytes;
    - [os.path.exists], [open], [json.load]: by the state of the file
      ([file_state]), [json.dump]: by the value it serialises or the
      [TypeError] it raises;
    - [os.path.dirname] on the path, [os.makedirs] by the name it is given;
    - scikit-learn (split, scaling, fit, scoring): one opaque step that
      returns a report or raises.

    Writing a file succeeds and replaces what the file held: a directory
    that has a name is taken to exist or to be made by [os.makedirs], and
    the files in it to be writable.  The model file, the metadata file and
    the data set files are different files.  The logging and the database
    are left out. *)

From Stdlib Require Import ZArith List String Ascii Bool Lia.
From Stdlib Require Import Floats.SpecFloat.
From stdpp Require Import base option list gmap strings pretty.

Local Open Scope string_scope.
Local Open Scope list_scope.

(** ** Python exceptions *)

Module Py.

(** The classes that occur in the two modules, with the builtin classes
    between them and [BaseException]. *)
Inductive exn_class :=
| BaseException
| Exception
| ArithmeticError
| OverflowError
| LookupError
| KeyError
| OSError
| FileNotFoundError
| PermissionError
| RuntimeError
| RecursionError
| TypeError
| ValueError
| UnicodeError
| UnicodeDecodeError
| JSONDecodeError
| HTTPException
| InvalidInputError.

#[export] Instance exn_class_eq_dec : EqDecision exn_class.
Proof. solve_decision. Defined.

(** Direct base class.  [json.JSONDecodeError] and [UnicodeDecodeError] both
    derive from [ValueError]; [fastapi.HTTPException] derives from
    [Exception].  [InvalidInputError] is declared in [ml/predictor.py]; its
    base is taken to be [Exception]. *)
Definition base (c : exn_class) : option exn_class :=
  match c with
  | BaseException => None
  | Exception => Some BaseException
  | ArithmeticError => Some Exception
  | OverflowError => Some ArithmeticError
  | LookupError => Some Exception
  | KeyError => Some LookupError
  | OSError => Some Exception
  | FileNotFoundError => Some OSError
  | PermissionError => Some OSError
  | RuntimeError => Some Exception
  | RecursionError => Some RuntimeError
  | TypeError => Some Exception
  | ValueError => Some Exception
  | UnicodeError => Some ValueError
  | UnicodeDecodeError => Some UnicodeError
  | JSONDecodeError => Some ValueError
  | HTTPException => Some Exception
  | InvalidInputError => Some Exception
  end.

(** [issubclass c d], by walking up the bases; the hierarchy has depth 5. *)
Fixpoint subclass_upto (n : nat) (c d : exn_class) : bool :=
  bool_decide (c = d) ||
  match n with
  | O => false
  | S n' => match base c with
            | Some b => subclass_upto n' b d
            | None => false
            end
  end.

Definition issubclass (c d : exn_class) : bool := subclass_upto 5 c d.

(** A raised exception, by what the code can ask of it: its class, and the
    text [str(e)] gives.  [Exn c msg] is an instance of the class [c] with
    [str(e) = msg]: for a [ValueError("m")] or a [FileNotFoundError("m")]
    that is [m]; for a [KeyError] it is the [repr] of the key, so that
    [KeyError('result')] is [Exn KeyError "'result'"].  [HTTPExc] is an
    [HTTPException(status_code, detail)]. *)
Inductive exn :=
| Exn (c : exn_class) (msg : string)
| HTTPExc (status_code : nat) (detail : string).

Definition class_of (e : exn) : exn_class :=
  match e with
  | Exn c _ => c
  | HTTPExc _ _ => HTTPException
  end.

(** [isinstance(e, c)], the test an [except c:] clause makes. *)
Definition isinstance (e : exn) (c : exn_class) : bool :=
  issubclass (class_of e) c.

(** [str(e)]; Starlette renders an [HTTPException] as its status and
    detail. *)
Definition str (e : exn) : string :=
  match e with
  | Exn _ msg => msg
  | HTTPExc sc d => pretty sc +:+ ": " +:+ d
  end.

(** The outcome of a call: a value or a raised exception. *)
Inductive outcome (A : Type) :=
| Ret (a : A)
| Raise (e : exn).
Arguments Ret {A} a.
Arguments Raise {A} e.

#[export] Instance outcome_ret : MRet outcome := λ A a, Ret a.

#[export] Instance outcome_bind : MBind outcome := λ A B k r,
  match r with
  | Ret a => k a
  | Raise e => Raise e
  end.

#[export] Instance outcome_fmap : FMap outcome := λ A B g r,
  match r with
  | Ret a => Ret (g a)
  | Raise e => Raise e
  end.

(** [try: body  except c1: h1  except c2: h2 ...]: the first clause whose
    class the exception is an instance of handles it; with no such clause
    the exception leaves the statement. *)
Fixpoint handle {A} (e : exn) (clauses : list (exn_class * (exn → outcome A)))
  : outcome A :=
  match clauses with
  | [] => Raise e
  | (c, h) :: rest => if isinstance e c then h e else handle e rest
  end.

Definition try_except {A} (body : outcome A)
    (clauses : list (exn_class * (exn → outcome A))) : outcome A :=
  match body with
  | Ret a => Ret a
  | Raise e => handle e clauses
  end.

Definition returns {A} (r : outcome A) : bool :=
  match r with Ret _ => true | Raise _ => false end.

(** The call raises an instance of class [c]. *)
Definition raises {A} (r : outcome A) (c : exn_class) : Prop :=
  ∃ e, r = Raise e ∧ isinstance e c = true.

End Py.
Import Py.

(** ** Python floats *)

Abbreviation float := spec_float.

Definition prec : Z := 53.
Definition emax : Z := 1024.

Definition f_0_0 : float := S754_zero false.
Definition f_1_0 : float := S754_finite false 4503599627370496 (-52).
(** The literal [0.6], that is 5404319552844595 / 2^53. *)
Definition f_0_6 : float := S754_finite false 5404319552844595 (-53).

(** [0.0 < t < 1.0], the chained comparison; false on a NaN. *)
Definition strictly_between_0_and_1 (t : float) : bool :=
  SFltb f_0_0 t && SFltb t f_1_0.

(** [p >= t]. *)
Definition float_ge (p t : float) : bool := SFleb t p.

(** [float(n)] for an [int]: rounded to nearest even; [OverflowError] when
    the rounded value does not fit a double. *)
Definition float_of_int (n : Z) : outcome float :=
  match binary_normalize prec emax n 0 false with
  | S754_infinity _ => Raise (Exn OverflowError "int too large to convert to float")
  | f => Ret f
  end.

(** *** [float(s)] for a [str]

    A [str] is held as its UTF-8 bytes, which is how a variable of the
    environment reaches [os.getenv].  [float] first brings the text to
    ASCII: a character below 127 stays, a Unicode white space becomes a
    blank, a Unicode decimal digit becomes its ASCII digit, and anything
    else, a byte that is not UTF-8 included, is a [ValueError].  Then single
    underscores between digits are dropped, surrounding ASCII white space
    is stripped, and what is left is an optional sign followed by [inf],
    [infinity] or [nan] in any case, or by a decimal number with an optional
    exponent.  The decimal value is rounded to nearest even.  The tables are
    those of Unicode 14.0. *)

(** The six bits of a continuation byte [10xxxxxx]. *)
Definition continuation (c : ascii) : option N :=
  let b := N_of_ascii c in
  if ((128 <=? b) && (b <? 192))%N then Some (b - 128)%N else None.

(** The code points of a UTF-8 text; [None] for bytes that are not UTF-8
    (a stray or missing continuation byte, an overlong form, a surrogate, a
    value above 0x10FFFF). *)
Fixpoint utf8_decode (l : list ascii) : option (list N) :=
  match l with
  | [] => Some []
  | c :: l1 =>
      let b := N_of_ascii c in
      if (b <? 128)%N then cons b <$> utf8_decode l1
      else if (b <? 194)%N then None
      else if (b <? 224)%N then
        match l1 with
        | c1 :: l2 =>
            x1 ← continuation c1;
            cons ((b - 192) * 64 + x1)%N <$> utf8_decode l2
        | _ => None
        end
      else if (b <? 240)%N then
        match l1 with
        | c1 :: c2 :: l3 =>
            x1 ← continuation c1; x2 ← continuation c2;
            let cp := ((b - 224) * 4096 + x1 * 64 + x2)%N in
            if ((cp <? 2048) || (55296 <=? cp) && (cp <? 57344))%N then None
            else cons cp <$> utf8_decode l3
        | _ => None
        end
      else if (b <? 245)%N then
        match l1 with
        | c1 :: c2 :: c3 :: l4 =>
            x1 ← continuation c1; x2 ← continuation c2; x3 ← continuation c3;
            let cp := ((b - 240) * 262144 + x1 * 4096 + x2 * 64 + x3)%N in
            if ((cp <? 65536) || (1114111 <? cp))%N then None
            else cons cp <$> utf8_decode l4
        | _ => None
        end
      else None
  end.

(** The white space of Unicode from 127 on. *)
Definition unicode_spaces : list N :=
  [0x85; 0xA0; 0x1680; 0x2000; 0x2001; 0x2002; 0x2003; 0x2004; 0x2005; 0x2006;
   0x2007; 0x2008; 0x2009; 0x200A; 0x2028; 0x2029; 0x202F; 0x205F; 0x3000]%N.

(** The decimal digits of Unicode come in runs of ten, 0 to 9; these are
    the code points of the zeros from 127 on. *)
Definition unicode_zeros : list N :=
  [0x660; 0x6F0; 0x7C0; 0x966; 0x9E6; 0xA66; 0xAE6; 0xB66; 0xBE6; 0xC66; 0xCE6;
   0xD66; 0xDE6; 0xE50; 0xED0; 0xF20; 0x1040; 0x1090; 0x17E0; 0x1810; 0x1946;
   0x19D0; 0x1A80; 0x1A90; 0x1B50; 0x1BB0; 0x1C40; 0x1C50; 0xA620; 0xA8D0;
   0xA900; 0xA9D0; 0xA9F0; 0xAA50; 0xABF0; 0xFF10; 0x104A0; 0x10D30; 0x11066;
   0x110F0; 0x11136; 0x111D0; 0x112F0; 0x11450; 0x114D0; 0x11650; 0x116C0;
   0x11730; 0x118E0; 0x11950; 0x11C50; 0x11D50; 0x11DA0; 0x16A60; 0x16AC0;
   0x16B50; 0x1D7CE; 0x1D7D8; 0x1D7E2; 0x1D7EC; 0x1D7F6; 0x1E140; 0x1E2F0;
   0x1E950; 0x1FBF0]%N.

Definition unicode_decimal (cp : N) : option N :=
  (λ zero, cp - zero)%N <$>
    List.find (λ zero, (zero <=? cp) && (cp <? zero + 10))%N unicode_zeros.

(** The ASCII character [float] reads for a code point. *)
Definition to_ascii (cp : N) : option ascii :=
  if (cp <? 127)%N then Some (ascii_of_N cp)
  else if bool_decide (cp ∈ unicode_spaces) then Some " "%char
  else (λ d, ascii_of_N (48 + d)) <$> unicode_decimal cp.

(** The white space of ASCII: tab, line feed, vertical tab, form feed,
    carriage return and blank. *)
Definition is_space (c : ascii) : bool :=
  let n := nat_of_ascii c in
  ((9 <=? n) && (n <=? 13) || (n =? 32))%nat.

Definition is_digit (c : ascii) : bool :=
  let n := nat_of_ascii c in ((48 <=? n) && (n <=? 57))%nat.

Definition digit_value (c : ascii) : Z := Z.of_nat (nat_of_ascii c) - 48.

Definition lower (c : ascii) : ascii :=
  let n := nat_of_ascii c in
  if ((65 <=? n) && (n <=? 90))%nat then ascii_of_nat (n + 32) else c.

Fixpoint lstrip (l : list ascii) : list ascii :=
  match l with
  | c :: l' => if is_space c then lstrip l' else l
  | [] => []
  end.

Definition strip (l : list ascii) : list ascii := rev (lstrip (rev (lstrip l))).

(** Underscores are allowed only between two digits, and are dropped. *)
Fixpoint drop_underscores (prev : ascii) (l : list ascii) : option (list ascii) :=
  match l with
  | [] => if Ascii.eqb prev "_" then None else Some []
  | c :: l' =>
      if Ascii.eqb c "_" then
        if is_digit prev then drop_underscores c l' else None
      else if Ascii.eqb prev "_" && negb (is_digit c) then None
      else cons c <$> drop_underscores c l'
  end.

(** The longest prefix of digits, and the rest. *)
Fixpoint span_digits (l : list ascii) : list ascii * list ascii :=
  match l with
  | c :: l' =>
      if is_digit c then let '(ds, r) := span_digits l' in (c :: ds, r)
      else ([], l)
  | [] => ([], [])
  end.

Definition digits_value (ds : list ascii) : Z :=
  fold_left (λ acc c, 10 * acc + digit_value c)%Z ds 0%Z.

Definition take_sign (l : list ascii) : bool * list ascii :=
  match l with
  | "-"%char :: l' => (true, l')
  | "+"%char :: l' => (false, l')
  | _ => (false, l)
  end.

(** The optional exponent part; what follows it must be the end. *)
Definition parse_exponent (l : list ascii) : option Z :=
  match l with
  | [] => Some 0%Z
  | c :: l' =>
      if Ascii.eqb (lower c) "e" then
        let '(neg, l'') := take_sign l' in
        match span_digits l'' with
        | (d :: ds, []) =>
            let e := digits_value (d :: ds) in Some (if neg then (- e)%Z else e)
        | _ => None
        end
      else None
  end.

(** [s * m * 10^e10], correctly rounded. *)
Definition pow10 (e : Z) : positive :=
  match e with
  | Zpos k => Pos.pow 10 k
  | _ => 1%positive
  end.

Definition decimal_to_float (s : bool) (m e10 : Z) : float :=
  match m with
  | Zpos p =>
      SFdiv prec emax (S754_finite s (p * pow10 e10) 0)
                      (S754_finite false (pow10 (- e10)) 0)
  | _ => S754_zero s
  end.

Definition parse_decimal (s : bool) (l : list ascii) : option float :=
  let '(ip, r) := span_digits l in
  let '(fp, r) :=
    match r with
    | "."%char :: r' => span_digits r'
    | _ => ([], r)
    end in
  match ip ++ fp with
  | [] => None
  | ds =>
      e ← parse_exponent r;
      Some (decimal_to_float s (digits_value ds) (e - Z.of_nat (length fp)))
  end.

Definition parse_inf_or_nan (s : bool) (l : list ascii) : option float :=
  let w := string_of_list_ascii (map lower l) in
  if String.eqb w "inf" || String.eqb w "infinity" then Some (S754_infinity s)
  else if String.eqb w "nan" then Some S754_nan
  else None.

(** The message of the [ValueError] ends, in Python, with the [repr] of the
    argument, which is left out: the code does not read the message. *)
Definition float_of_str (s : string) : outcome float :=
  let parsed :=
    code_points ← utf8_decode (list_ascii_of_string s);
    text ← mapM to_ascii code_points;
    digits ← drop_underscores "000" text;
    let '(neg, body) := take_sign (strip digits) in
    match parse_decimal neg body with
    | Some f => Some f
    | None => parse_inf_or_nan neg body
    end in
  match parsed with
  | Some f => Ret f
  | None => Raise (Exn ValueError "could not convert string to float")
  end.

(** ** JSON values and the metadata file *)

(** What [json.load] returns: [None], [bool], [int], [float], [str], [list]
    and [dict] with [str] keys. *)
#[warnings="-register-all"]
Inductive json :=
| JNull
| JBool (b : bool)
| JInt (n : Z)
| JFloat (f : float)
| JStr (s : string)
| JList (l : list json)
| JDict (d : gmap string json).

(** *** The limits of [json.load]

    The parser does not convert an integer of more than 4300 digits
    ([sys.get_int_max_str_digits()]), and it takes one level of the
    recursion limit (1000) for each array or object it is inside of, where
    its callers have taken at least one: a document nested 1000 deep or
    deeper is not parsed. *)

Definition int_max_str_digits : nat := 4300.
Definition max_nesting : nat := 999.

(** [n], which is not negative, has at most [digits] decimal digits. *)
Fixpoint within_digits (digits : nat) (n : Z) : bool :=
  match digits with
  | O => false
  | S k => (n <? 10)%Z || within_digits k (n / 10)%Z
  end.

Fixpoint integers_fit (v : json) : bool :=
  match v with
  | JInt n => within_digits int_max_str_digits (Z.abs n)
  | JList l => forallb integers_fit l
  | JDict d => map_fold (λ _ x acc, integers_fit x && acc) true d
  | _ => true
  end.

(** Arrays and objects are nested at most [levels] deep in [v]. *)
Fixpoint nesting_fits (levels : nat) (v : json) {struct v} : bool :=
  match v with
  | JList l =>
      match levels with
      | O => false
      | S k => forallb (nesting_fits k) l
      end
  | JDict d =>
      match levels with
      | O => false
      | S k => map_fold (λ _ x acc, nesting_fits k x && acc) true d
      end
  | _ => true
  end.

(** The file at [METADATA_PATH], as [os.path.exists], [open(..., "r",
    encoding="utf-8")] and [json.load] see it:
    - [FileAbsent]: there is no such path;
    - [FileUnreadable]: the path exists, and opening or reading it is an
      [OSError] (no permission, a directory);
    - [FileUndecodable]: the bytes are not UTF-8, and reading them is a
      [UnicodeDecodeError];
    - [FileNotJson]: the text is not a JSON document, and parsing it is a
      [JSONDecodeError] (an empty or truncated file, for one);
    - [FileIntTooLong]: the parser meets an integer of more than 4300
      digits, which is a [ValueError];
    - [FileTooDeep]: the parser runs out of the recursion limit, which is a
      [RecursionError];
    - [FileJson v]: the text is the JSON document that loads as [v].  No
      text loads as a [v] beyond the two limits; reading such a [v] raises
      as the parser does at the limit, the nesting taken first. *)
Inductive file_state :=
| FileAbsent
| FileUnreadable
| FileUndecodable
| FileNotJson
| FileIntTooLong
| FileTooDeep
| FileJson (v : json).

Definition path_exists (f : file_state) : bool :=
  match f with
  | FileAbsent => false
  | _ => true
  end.

Definition int_limit_error : exn :=
  Exn ValueError "Exceeds the limit (4300 digits) for integer string conversion".

Definition recursion_error : exn :=
  Exn RecursionError "maximum recursion depth exceeded while decoding a JSON document".

(** [with open(path, "r", encoding="utf-8") as fp: json.load(fp)]. *)
Definition open_and_load (f : file_state) : outcome json :=
  match f with
  | FileAbsent => Raise (Exn FileNotFoundError "[Errno 2] No such file or directory")
  | FileUnreadable => Raise (Exn PermissionError "[Errno 13] Permission denied")
  | FileUndecodable => Raise (Exn UnicodeDecodeError "'utf-8' codec can't decode byte")
  | FileNotJson => Raise (Exn JSONDecodeError "Expecting value")
  | FileIntTooLong => Raise int_limit_error
  | FileTooDeep => Raise recursion_error
  | FileJson v =>
      if negb (nesting_fits max_nesting v) then Raise recursion_error
      else if negb (integers_fit v) then Raise int_limit_error
      else Ret v
  end.

(** [d.get(k)]: the value, or [None]. *)
Definition dict_get (d : gmap string json) (k : string) : json :=
  default JNull (d !! k).

(** [isinstance(v, (float, int))]; [bool] is a subclass of [int]. *)
Definition is_float_or_int (v : json) : bool :=
  match v with
  | JFloat _ | JInt _ | JBool _ => true
  | _ => false
  end.

(** [float(v)] on a loaded value; a [str] is not reached by the code. *)
Definition to_float (v : json) : outcome float :=
  match v with
  | JFloat f => Ret f
  | JInt n => float_of_int n
  | JBool b => Ret (if b then f_1_0 else f_0_0)
  | _ => Raise (Exn TypeError "float() argument must be a string or a real number")
  end.

(** [isinstance(v, (float, int)) and 0.0 < float(v) < 1.0]. *)
Definition is_valid_threshold (v : json) : outcome bool :=
  if is_float_or_int v then t ← to_float v; Ret (strictly_between_0_and_1 t)
  else Ret false.

(** ** main.py: [_resolve_threshold_with_source] *)

(** Lines 89-96.  [Some] is a [return] taken, [None] is falling through to
    the next statement. *)
Definition resolve_from_env (PRED_THRESHOLD : option string)
  : outcome (option (float * string)) :=
  match PRED_THRESHOLD with
  | Some env_threshold =>
      if bool_decide (env_threshold ≠ "") then
        try_except
          (threshold ← float_of_str env_threshold;
           if strictly_between_0_and_1 threshold
           then Ret (Some (threshold, "env"))
           else Ret None)
          [(ValueError, λ _, Ret None)]
      else Ret None
  | None => Ret None
  end.

(** Lines 98-110. *)
Definition resolve_from_metadata (f : file_state)
  : outcome (option (float * string)) :=
  if path_exists f then
    try_except
      (metadata ← open_and_load f;
       match metadata with
       | JDict d =>
           let user_threshold := dict_get d "user_threshold" in
           ok ← is_valid_threshold user_threshold;
           if ok : bool then
             t ← to_float user_threshold; Ret (Some (t, "metadata:user"))
           else
             let recommended := dict_get d "recommended_threshold" in
             ok ← is_valid_threshold recommended;
             if ok : bool then
               t ← to_float recommended; Ret (Some (t, "metadata:recommended"))
             else Ret None
       | _ => Ret None
       end)
      [(JSONDecodeError, λ _, Ret None); (OSError, λ _, Ret None)]
  else Ret None.

Definition _resolve_threshold_with_source
    (PRED_THRESHOLD : option string) (f : file_state) : outcome (float * string) :=
  r ← resolve_from_env PRED_THRESHOLD;
  match r with
  | Some answer => Ret answer
  | None =>
      r ← resolve_from_metadata f;
      match r with
      | Some answer => Ret answer
      | None => Ret (f_0_6, "default")
      end
  end.

(** ** main.py: [update_threshold] *)

(** Lines 266-274: the dictionary the two keys are then set in. *)
Definition load_metadata_for_update (f : file_state) : outcome (gmap string json) :=
  if path_exists f then
    try_except
      (loaded ← open_and_load f;
       match loaded with
       | JDict d => Ret d
       | _ => Ret ∅
       end)
      [(JSONDecodeError, λ _, Ret ∅)]
  else Ret ∅.

(** [os.path.dirname(p)] of [posixpath]: what stands before the last slash
    of [p], with the slashes at its end taken off unless it is made of
    slashes only.  It is empty exactly when [p] has no slash. *)
Fixpoint drop_while (P : ascii → bool) (l : list ascii) : list ascii :=
  match l with
  | c :: l' => if P c then drop_while P l' else l
  | [] => []
  end.

Definition is_slash (c : ascii) : bool := Ascii.eqb c "/".

Definition os_path_dirname (p : string) : string :=
  let head := drop_while (λ c, negb (is_slash c)) (rev (list_ascii_of_string p)) in
  string_of_list_ascii
    (rev (if forallb is_slash head then head else drop_while is_slash head)).

(** [os.makedirs(name, exist_ok=True)]: nothing can be made under the empty
    name, which is the [FileNotFoundError] of [mkdir]; a directory that has
    a name is there afterwards. *)
Definition os_makedirs (name : string) : outcome unit :=
  if String.eqb name ""
  then Raise (Exn FileNotFoundError "[Errno 2] No such file or directory: ''")
  else Ret tt.

(** [METADATA_PATH] is [os.getenv("MODEL_METADATA_PATH", ...)]; [threshold]
    is [payload.threshold]; [utcnow] is [datetime.utcnow().isoformat()].
    The dictionary holds loaded JSON values, a [float] and a [str], which
    [json.dump] writes as they are.  The result is the file afterwards and
    the response or the exception. *)
Definition update_threshold (METADATA_PATH : string) (threshold : float)
    (utcnow : string) (f : file_state) : file_state * outcome (float * string) :=
  if negb (strictly_between_0_and_1 threshold) then
    (f, Raise (HTTPExc 400 "Threshold must be between 0 and 1."))
  else
    match load_metadata_for_update f with
    | Raise e => (f, Raise e)
    | Ret metadata =>
        let metadata := <["user_threshold" := JFloat threshold]> metadata in
        let metadata := <["user_threshold_set_at" := JStr (utcnow +:+ "Z")]> metadata in
        match os_makedirs (os_path_dirname METADATA_PATH) with
        | Raise e => (f, Raise e)
        | Ret _ => (FileJson (JDict metadata), Ret (threshold, "metadata"))
        end
    end.

(** ** Python objects built in memory, and [json.dump] *)

(** Dictionary keys that occur: [str], and the [int] class labels. *)
Inductive pykey :=
| KStr (s : string)
| KInt (n : Z).

(** [PNpInt64] is a [numpy.int64] scalar, which is what indexing a pandas
    Series of counts returns; it is not an instance of [int]. *)
#[warnings="-register-all"]
Inductive pyobj :=
| PNone
| PBool (b : bool)
| PInt (n : Z)
| PFloat (f : float)
| PStr (s : string)
| PNpInt64 (n : Z)
| PList (l : list pyobj)
| PDict (items : list (pykey * pyobj)).

(** The key [json.dump] writes: an [int] key is written as its decimal text. *)
Definition json_key (k : pykey) : string :=
  match k with
  | KStr s => s
  | KInt n => pretty n
  end.

(** The JSON document [json.dump(o, fp, indent=2)] writes, or the
    [TypeError] of the default encoder on an object it does not know. *)
Fixpoint json_dump (o : pyobj) : outcome json :=
  match o with
  | PNone => Ret JNull
  | PBool b => Ret (JBool b)
  | PInt n => Ret (JInt n)
  | PFloat f => Ret (JFloat f)
  | PStr s => Ret (JStr s)
  | PNpInt64 _ => Raise (Exn TypeError "Object of type int64 is not JSON serializable")
  | PList l =>
      JList <$>
        (fix dump_all (l : list pyobj) : outcome (list json) :=
           match l with
           | [] => Ret []
           | x :: l' => v ← json_dump x; vs ← dump_all l'; Ret (v :: vs)
           end) l
  | PDict items =>
      JDict <$>
        (fix dump_items (acc : gmap string json) (items : list (pykey * pyobj))
           : outcome (gmap string json) :=
           match items with
           | [] => Ret acc
           | (k, x) :: items' =>
               v ← json_dump x; dump_items (<[json_key k := v]> acc) items'
           end) ∅ items
  end.

(** [d.get(k, dflt)] on a dictionary built in memory. *)
Fixpoint pdict_get (items : list (pykey * pyobj)) (k : string) (dflt : pyobj) : pyobj :=
  match items with
  | [] => dflt
  | (KStr s, v) :: items' => if String.eqb s k then v else pdict_get items' k dflt
  | _ :: items' => pdict_get items' k dflt
  end.

(** ** ml/train.py *)

Module Frame.

(** A row of the data set; a missing cell is [None]. *)
Record row := {
  attendance : option float;
  marks : option float;
  internal_score : option float;
  final_exam_score : option float;
  result : option Z }.

Abbreviation DataFrame := (list row).

(** [df.dropna(subset=["result"])]. *)
Definition dropna_result (df : DataFrame) : DataFrame :=
  filter (λ r, is_Some (result r)) df.

(** [df["result"]] of a frame without missing labels. *)
Definition labels (df : DataFrame) : list Z := omap result df.

(** The distinct values of a column, in the order of their first
    occurrence. *)
Fixpoint unique (l : list Z) : list Z :=
  match l with
  | [] => []
  | x :: l' => x :: filter (λ y, y ≠ x) (unique l')
  end.

(** [x] goes before the first entry that does not count more than it. *)
Fixpoint insert_by_count (x : Z * nat) (l : list (Z * nat)) : list (Z * nat) :=
  match l with
  | [] => [x]
  | y :: l' => if (x.2 <? y.2)%nat then y :: insert_by_count x l' else x :: l
  end.

(** [Series.value_counts()]: each distinct value with the number of its
    occurrences, the most frequent first; values that occur equally often
    stay in the order of their first occurrence. *)
Definition value_counts (l : list Z) : list (Z * nat) :=
  foldr insert_by_count []
    (map (λ x, (x, count_occ Z.eq_dec l x)) (unique l)).

End Frame.
Import Frame.

(** The three features, in the order of the columns. *)
Definition features : Type := float * float * float.

(** What [joblib.dump({"model": model, "scaler": scaler}, model_path)]
    saves: the fitted scaler and the fitted classifier, the latter by the
    probability of the positive class it predicts. *)
Record artifact := {
  scaler : features → features;
  model : features → float }.

(** What lines 32-56 of [train_model] compute with scikit-learn. *)
Record fit_report := {
  fitted : artifact;
  accuracy : float;
  precision : float;
  recall : float;
  f1_score : float;
  roc_auc : float }.

(** The two files a run writes: the one at the model path and the one at
    the metadata path. *)
Record store := {
  model_file : option artifact;
  metadata_file : file_state }.

(** The data set file at a path, as [os.path.exists] and [pd.read_csv]
    (with the [dropna] on the label column) see it. *)
Inductive csv_state :=
| CsvAbsent
| CsvUnloadable (e : exn)
| CsvFrame (df : DataFrame).

(** [os.path.join(a, b)] for a relative [b]. *)
Definition path_join (a b : string) : string :=
  if String.eqb a "" then b
  else if String.eqb (substring (String.length a - 1) 1 a) "/" then a +:+ b
  else a +:+ "/" +:+ b.

Section Training.

(** Column selection, [train_test_split], [StandardScaler],
    [CalibratedClassifierCV(LogisticRegression)] and the five scores:
    deterministic in the frame ([random_state=42]), and may raise. *)
Variable sklearn : DataFrame → outcome fit_report.

(** The directory of the backend, [BASE_DIR]. *)
Variable BASE_DIR : string.

Definition DATA_DIR : string := path_join BASE_DIR "data".

Definition metrics_dict (rep : fit_report) : pyobj :=
  PDict [(KStr "accuracy", PFloat (accuracy rep));
         (KStr "precision", PFloat (precision rep));
         (KStr "recall", PFloat (recall rep));
         (KStr "f1_score", PFloat (f1_score rep))].

(** Lines 55-60.  [float(...)] and [int(...)] make the first two values
    builtin numbers.  [dict(series)] reads each value with [series[key]],
    which is the [numpy.int64] scalar the Series holds (it is
    [Series.to_dict()] that converts to [int]); the keys, read by iterating
    over the index, are [int]. *)
Definition metadata_dict (rep : fit_report) (df : DataFrame) : pyobj :=
  PDict [(KStr "roc_auc", PFloat (roc_auc rep));
         (KStr "samples_used", PInt (Z.of_nat (length df)));
         (KStr "class_counts",
            PDict (map (λ kc, (KInt kc.1, PNpInt64 (Z.of_nat kc.2)))
                       (value_counts (labels df))));
         (KStr "recommended_threshold", PFloat f_0_6)].

(** [train_model(df, model_path, metadata_path)], on the store that holds
    the files at the two paths.  Nothing is written before line 63, where
    the directory of the model is made.  [joblib.dump] replaces the model
    file; [open(metadata_path, "w")] empties the metadata file and
    [json.dump] writes into it, so a dump that raises leaves a text that is
    not a JSON document. *)
Definition train_model (df : DataFrame) (model_path metadata_path : string) (w : store)
  : store * outcome ((features → float) * pyobj * pyobj) :=
  match sklearn df with
  | Raise e => (w, Raise e)
  | Ret rep =>
      let metrics := metrics_dict rep in
      let metadata := metadata_dict rep df in
      match os_makedirs (os_path_dirname model_path) with
      | Raise e => (w, Raise e)
      | Ret _ =>
          let w := {| model_file := Some (fitted rep);
                      metadata_file := metadata_file w |} in
          match json_dump metadata with
          | Raise e =>
              ({| model_file := model_file w; metadata_file := FileNotJson |}, Raise e)
          | Ret doc =>
              ({| model_file := model_file w; metadata_file := FileJson doc |},
               Ret (model (fitted rep), metrics, metadata))
          end
      end
  end.

(** [train_from_csv(csv_path, model_path, metadata_path)]; [files] maps a
    path to the data set file there. *)
Definition train_from_csv (files : string → csv_state) (csv_path : option string)
    (model_path metadata_path : string) (w : store)
  : store * outcome ((features → float) * pyobj * pyobj) :=
  let csv_path :=
    match csv_path with
    | None => path_join DATA_DIR "student_data_sample.csv"
    | Some p => p
    end in
  match files csv_path with
  | CsvAbsent => (w, Raise (Exn FileNotFoundError ("Dataset not found at " +:+ csv_path)))
  | CsvUnloadable e => (w, Raise e)
  | CsvFrame df =>
      let df := dropna_result df in
      if (length df <? 10)%nat then
        (w, Raise (Exn ValueError
              ("Insufficient data for training. Need at least 10 samples, got "
               +:+ pretty (length df))))
      else train_model df model_path metadata_path w
  end.

(** ** main.py: [retrain] *)

Definition retrain_response (metrics metadata : list (pykey * pyobj))
    (MODEL_PATH METADATA_PATH utcnow : string) : pyobj :=
  PDict [(KStr "accuracy", pdict_get metrics "accuracy" PNone);
         (KStr "precision", pdict_get metrics "precision" PNone);
         (KStr "recall", pdict_get metrics "recall" PNone);
         (KStr "f1_score", pdict_get metrics "f1_score" PNone);
         (KStr "roc_auc", pdict_get metadata "roc_auc" PNone);
         (KStr "model_path", PStr MODEL_PATH);
         (KStr "metadata_path", PStr METADATA_PATH);
         (KStr "timestamp", PStr (utcnow +:+ "Z"));
         (KStr "samples_used", pdict_get metadata "samples_used" (PInt 0));
         (KStr "class_distribution", pdict_get metadata "class_distribution" (PDict []));
         (KStr "class_counts", pdict_get metadata "class_counts" (PDict []));
         (KStr "recommended_threshold", pdict_get metadata "recommended_threshold" (PFloat f_0_6));
         (KStr "metrics_cv", pdict_get metadata "metrics_cv" (PDict []));
         (KStr "user_threshold", pdict_get metadata "user_threshold" PNone)].

Definition items_of (o : pyobj) : list (pykey * pyobj) :=
  match o with
  | PDict items => items
  | _ => []
  end.

(** The three [except] clauses of [retrain], lines 245-256. *)
Definition retrain_clauses {A} : list (exn_class * (exn → outcome A)) :=
  [(FileNotFoundError, λ _, Raise (HTTPExc 404
      "CSV file not found. Please ensure student_data_sample.csv exists in /data."));
   (ValueError, λ exc, Raise (HTTPExc 400 (str exc)));
   (Exception, λ e, Raise (HTTPExc 500 ("Training error: " +:+ str e)))].

Definition retrain (files : string → csv_state) (MODEL_PATH METADATA_PATH utcnow : string)
    (w : store) : store * outcome pyobj :=
  let csv_path := path_join (path_join BASE_DIR "data") "student_data_sample.csv" in
  let '(w', r) := train_from_csv files (Some csv_path) MODEL_PATH METADATA_PATH w in
  (w', try_except
         ('(_, metrics, metadata) ← r;
          Ret (retrain_response (items_of metrics) (items_of metadata)
                 MODEL_PATH METADATA_PATH utcnow))
         retrain_clauses).

End Training.

(** ** ml/predictor.py and the prediction endpoints of main.py *)

(** The response of a single prediction. *)
Record prediction_result := {
  probability : float;
  prediction : Z;
  threshold_used : float;
  threshold_source : string }.

(** The fields of [schemas.PredictRequest]; a field without a number is
    [None]. *)
Module Request.
Record t := {
  attendance : option float;
  marks : option float;
  internal_score : option float;
  final_exam_score : option float }.
End Request.

(** A row of [crud.get_all_enrollments_for_batch_prediction]. *)
Module Enrollment.
Record t := {
  student_id : Z;
  course_id : Z;
  attendance : option float;
  marks : option float;
  internal_score : option float }.
End Enrollment.

(** An element of [prediction_data], lines 183-189. *)
Module Input.
Record t := {
  student_id : Z;
  course_id : Z;
  attendance : float;
  marks : float;
  internal_score : float }.
End Input.

(** An element of the answer of a batch prediction. *)
Module Batch.
Record t := {
  student_id : Z;
  course_id : Z;
  probability : float;
  prediction : Z;
  threshold_used : float;
  threshold_source : string }.
End Batch.

Definition missing_fields (a m i : option float) : list string :=
  (if a is None then ["attendance"] else []) ++
  (if m is None then ["marks"] else []) ++
  (if i is None then ["internal_score"] else []).

(** [1 if probability >= threshold else 0]. *)
Definition decide_label (probability threshold : float) : Z :=
  if float_ge probability threshold then 1 else 0.

(** Modelled from the spec: [Predictor.predict] of [ml/predictor.py], which
    is not among the sources.  After section 4.3: the three features must
    be present and numeric, else [InvalidInputError] naming the fields; the
    artifact is loaded when it is needed, and its absence is the
    [FileNotFoundError] that [main.py] catches; the probability is the
    classifier applied to the scaled feature vector; the label is cut at
    the resolver's current threshold, which is reported with its source. *)
Definition Predictor_predict (PRED_THRESHOLD : option string) (w : store)
    (attendance marks internal_score final_exam_score : option float)
  : outcome prediction_result :=
  match attendance, marks, internal_score with
  | Some a, Some m, Some i =>
      match model_file w with
      | None => Raise (Exn FileNotFoundError "Model file not found")
      | Some art =>
          let p := model art (scaler art (a, m, i)) in
          '(threshold, source) ←
             _resolve_threshold_with_source PRED_THRESHOLD (metadata_file w);
          Ret {| probability := p;
                 prediction := decide_label p threshold;
                 threshold_used := threshold;
                 threshold_source := source |}
      end
  | _, _, _ =>
      Raise (Exn InvalidInputError
               ("Missing or invalid fields: " +:+
                String.concat ", " (missing_fields attendance marks internal_score)))
  end.

(** Modelled from the spec: [Predictor.predict_batch] of [ml/predictor.py].
    After section 4.3: one result for each record, in the order given, each
    carrying the identifiers of its record, all cut at the resolver's
    current threshold. *)
Definition Predictor_predict_batch (PRED_THRESHOLD : option string) (w : store)
    (records : list Input.t) : outcome (list Batch.t) :=
  match model_file w with
  | None => Raise (Exn FileNotFoundError "Model file not found")
  | Some art =>
      '(threshold, source) ←
         _resolve_threshold_with_source PRED_THRESHOLD (metadata_file w);
      Ret (map (λ r,
             let p := model art (scaler art
                        (Input.attendance r, Input.marks r, Input.internal_score r)) in
             {| Batch.student_id := Input.student_id r;
                Batch.course_id := Input.course_id r;
                Batch.probability := p;
                Batch.prediction := decide_label p threshold;
                Batch.threshold_used := threshold;
                Batch.threshold_source := source |}) records)
  end.

(** main.py, lines 145-168. *)
Definition predict (PRED_THRESHOLD : option string) (w : store) (request : Request.t)
  : outcome prediction_result :=
  try_except
    (Predictor_predict PRED_THRESHOLD w
       (Request.attendance request) (Request.marks request)
       (Request.internal_score request) (Request.final_exam_score request))
    [(InvalidInputError, λ exc, Raise (HTTPExc 400 (str exc)));
     (FileNotFoundError, λ _, Raise (HTTPExc 503
        "Model not trained yet. Please train the model first using /api/retrain"));
     (Exception, λ exc, Raise (HTTPExc 500 ("Prediction error: " +:+ str exc)))].

(** Lines 178-189: the enrollments whose three features are all present. *)
Definition complete (e : Enrollment.t) : option Input.t :=
  match Enrollment.attendance e, Enrollment.marks e, Enrollment.internal_score e with
  | Some a, Some m, Some i =>
      Some {| Input.student_id := Enrollment.student_id e;
              Input.course_id := Enrollment.course_id e;
              Input.attendance := a;
              Input.marks := m;
              Input.internal_score := i |}
  | _, _, _ => None
  end.

Definition prediction_data (enrollments : list Enrollment.t) : list Input.t :=
  omap complete enrollments.

(** main.py, lines 171-214; the answer is the predictions and their number.
    The [HTTPException] of line 192 is raised inside the [try], where the
    last clause catches it. *)
Definition predict_batch (PRED_THRESHOLD : option string) (w : store)
    (enrollments : list Enrollment.t) : outcome (list Batch.t * nat) :=
  try_except
    (let data := prediction_data enrollments in
     if bool_decide (data = []) then
       Raise (HTTPExc 400 "No enrollments with complete data found for prediction. Please ensure students have attendance, marks, and internal_score values.")
     else
       predictions ← Predictor_predict_batch PRED_THRESHOLD w data;
       Ret (predictions, length predictions))
    [(FileNotFoundError, λ exc, Raise (HTTPExc 503
        ("Model not trained yet. Please train the model first using /api/retrain. Error: "
         +:+ str exc)));
     (InvalidInputError, λ exc, Raise (HTTPExc 400 ("Invalid input data: " +:+ str exc)));
     (Exception, λ exc, Raise (HTTPExc 500 ("Batch prediction error: " +:+ str exc)))].

(** ** main.py: [verify_admin_token] *)

(** [s.replace(old, new)] for a non-empty [old]: the occurrences of [old]
    are found from left to right and do not overlap.  [skip] counts the
    characters of an occurrence that remain to be passed over. *)
Fixpoint replace_from (old new : string) (skip : nat) (s : string) : string :=
  match s with
  | EmptyString => EmptyString
  | String c s' =>
      match skip with
      | S k => replace_from old new k s'
      | O =>
          if String.prefix old s
          then new +:+ replace_from old new (String.length old - 1) s'
          else String c (replace_from old new 0 s')
      end
  end.

Definition str_replace (old new s : string) : string := replace_from old new 0 s.

(** Lines 115-134.  [ADMIN_TOKEN] is [os.getenv("ADMIN_TOKEN", "changeme")];
    [authorization] is the header, [None] when the request has none.  The
    [HTTPException] of line 126 is raised inside the [try], where
    [except Exception] catches it. *)
Definition verify_admin_token (ADMIN_TOKEN : string) (authorization : option string)
  : outcome unit :=
  match authorization with
  | None => Raise (HTTPExc 401 "Authorization header missing")
  | Some a =>
      if String.eqb a "" then Raise (HTTPExc 401 "Authorization header missing")
      else
        try_except
          (let token := str_replace "Bearer " "" a in
           if negb (String.eqb token ADMIN_TOKEN)
           then Raise (HTTPExc 401 "Invalid admin token")
           else Ret tt)
          [(Exception, λ _, Raise (HTTPExc 401 "Invalid authorization header format"))]
  end.

(** ** main.py: [get_threshold] *)

(** Lines 286-289: the answer of the resolver as the response. *)
Definition get_threshold (PRED_THRESHOLD : option string) (f : file_state)
  : outcome (float * string) :=
  '(threshold, source) ← _resolve_threshold_with_source PRED_THRESHOLD f;
  Ret (threshold, source).

(** ** main.py: [get_students] *)

(** [a // b] on [int]: the quotient rounded down, and [ZeroDivisionError]
    for a zero divisor.  [ZeroDivisionError] derives from
    [ArithmeticError], under which it is listed here. *)
Definition floordiv (a b : Z) : outcome Z :=
  if (b =? 0)%Z then Raise (Exn ArithmeticError "integer division or modulo by zero")
  else Ret (a / b)%Z.

Module Students.

(** The response of [get_students]. *)
Record paginated (A : Type) := {
  items : list A;
  total : Z;
  page : Z;
  limit : Z;
  pages : Z }.
Arguments items {A} _.
Arguments total {A} _.
Arguments page {A} _.
Arguments limit {A} _.
Arguments pages {A} _.

End Students.

(** Lines 293-298.  [crud_get_students skip limit] is
    [crud.get_students(db, skip=skip, limit=limit)], which answers the
    students of the page and the number of all students. *)
Definition get_students {A : Type} (crud_get_students : Z → Z → outcome (list A * Z))
    (page limit : Z) : outcome (Students.paginated A) :=
  let skip := ((page - 1) * limit)%Z in
  '(students, total) ← crud_get_students skip limit;
  pages ← floordiv (total + limit - 1) limit;
  Ret {| Students.items := students; Students.total := total;
         Students.page := page; Students.limit := limit;
         Students.pages := pages |}.

(** ** main.py: [export_data] *)

(** A row of [crud.get_training_data]. *)
Module TrainingData.
Record t := {
  student_id : Z;
  course_id : Z;
  attendance : option float;
  marks : option float;
  internal_score : option float;
  final_exam_score : option float;
  result : option Z }.
End TrainingData.

Definition float_cell (x : option float) : pyobj :=
  match x with
  | Some f => PFloat f
  | None => PNone
  end.

Definition int_cell (x : option Z) : pyobj :=
  match x with
  | Some n => PInt n
  | None => PNone
  end.

(** The row of lines 342-345. *)
Definition export_header : list pyobj :=
  [PStr "student_id"; PStr "course_id"; PStr "attendance"; PStr "marks";
   PStr "internal_score"; PStr "final_exam_score"; PStr "result"].

(** The row of lines 347-350 for an enrollment. *)
Definition export_row (e : TrainingData.t) : list pyobj :=
  [PInt (TrainingData.student_id e); PInt (TrainingData.course_id e);
   float_cell (TrainingData.attendance e); float_cell (TrainingData.marks e);
   float_cell (TrainingData.internal_score e); float_cell (TrainingData.final_exam_score e);
   int_cell (TrainingData.result e)].

Definition export_csv_path (BASE_DIR : string) : string :=
  path_join (path_join BASE_DIR "data") "student_data_export.csv".

(** Lines 329-354.  [training_data] is [crud.get_training_data(db)];
    [exported] is the rows of the file at [csv_path], [None] when there is
    no such file.  The answer is the file afterwards and the path, media
    type and file name of the [FileResponse].  The [HTTPException] of line
    335 is raised inside the [try], where [except Exception] catches it. *)
Definition export_data (BASE_DIR : string) (training_data : outcome (list TrainingData.t))
    (exported : option (list (list pyobj)))
  : option (list (list pyobj)) * outcome (string * string * string) :=
  let csv_path := export_csv_path BASE_DIR in
  let body : option (list (list pyobj)) * outcome (string * string * string) :=
    match training_data with
    | Raise e => (exported, Raise e)
    | Ret enrollments =>
        if bool_decide (enrollments = []) then
          (exported, Raise (HTTPExc 400 "No data available for export"))
        else
          (Some (export_header :: map export_row enrollments),
           Ret (csv_path, "text/csv", "student_data_export.csv"))
    end in
  (body.1,
   try_except body.2
     [(Exception, λ e, Raise (HTTPExc 500 ("Export error: " +:+ str e)))]).

(** * Notions used in the statements *)

(** ** Sample values *)

Definition f_0_4 : float := S754_finite false 7205759403792794 (-54).
Definition f_0_55 : float := S754_finite false 4953959590107546 (-53).
Definition f_0_75 : float := S754_finite false 6755399441055744 (-53).
Definition f_0_8 : float := S754_finite false 7205759403792794 (-53).

(** A metadata file whose [user_threshold] is the integer 10^400. *)
Definition huge_user_threshold : file_state :=
  FileJson (JDict {[ "user_threshold" := JInt (10 ^ 400) ]}).

(** ** The priority chain, in the words of the specification *)

(** The chain in the words of the specification (section 4.2): the
    override of the environment, parsed as a float and strictly between 0.0
    and 1.0 ... *)
Definition env_override (PRED_THRESHOLD : option string) : option float :=
  match PRED_THRESHOLD with
  | Some s =>
      match float_of_str s with
      | Ret t => if strictly_between_0_and_1 t then Some t else None
      | Raise _ => None
      end
  | None => None
  end.

(** ... a JSON number whose value as a float is strictly between 0.0 and
    1.0 ... *)
Definition accepted (v : json) : option float :=
  match v with
  | JFloat t => if strictly_between_0_and_1 t then Some t else None
  | JInt n =>
      match float_of_int n with
      | Ret t => if strictly_between_0_and_1 t then Some t else None
      | Raise _ => None
      end
  | _ => None
  end.

(** ... persisted under [key] in the run metadata ... *)
Definition persisted_threshold (f : file_state) (key : string) : option float :=
  match f with
  | FileJson (JDict d) => d !! key ≫= accepted
  | _ => None
  end.

(** ... first satisfied wins, and 0.6 when none is. *)
Definition priority_chain (PRED_THRESHOLD : option string) (f : file_state)
  : float * string :=
  match env_override PRED_THRESHOLD with
  | Some t => (t, "env")
  | None =>
      match persisted_threshold f "user_threshold" with
      | Some t => (t, "metadata:user")
      | None =>
          match persisted_threshold f "recommended_threshold" with
          | Some t => (t, "metadata:recommended")
          | None => (f_0_6, "default")
          end
      end
  end.

(** The [OverflowError] of [float(int)]. *)
Definition overflow_error : exn :=
  Exn OverflowError "int too large to convert to float".

(** A persisted value converts when it is not an integer too large for a
    double. *)
Definition converts (v : json) : Prop :=
  ∀ n, v = JInt n → returns (float_of_int n) = true.

(** A metadata file the resolver can digest: its bytes decode, the parser
    stays within its limits, and the two thresholds convert. *)
Definition digestible (f : file_state) : Prop :=
  match f with
  | FileUndecodable | FileIntTooLong | FileTooDeep => False
  | FileJson v =>
      open_and_load f = Ret v ∧
      match v with
      | JDict d =>
          converts (dict_get d "user_threshold") ∧
          converts (dict_get d "recommended_threshold")
      | _ => True
      end
  | _ => True
  end.

(** ** The metadata before an update *)


(** The two paths of a backend at [/srv/backend], and a model path without
    a directory part. *)
Definition sample_metadata_path : string := "/srv/backend/models/metadata.json".
Definition sample_model_path : string := "/srv/backend/models/marks_classifier.joblib".
Definition bare_model_path : string := "marks_classifier.joblib".

(** The [FileNotFoundError] of [os.makedirs] on the empty name. *)
Definition no_directory_error : exn :=
  Exn FileNotFoundError "[Errno 2] No such file or directory: ''".

(** ** Sample data sets and reports *)

(** The [TypeError] of [json.dump] on a [numpy.int64]. *)
Definition int64_type_error : exn :=
  Exn TypeError "Object of type int64 is not JSON serializable".

(** A frame of ten labelled rows, six of class 1 and four of class 0. *)
Definition sample_row (label : Z) : row :=
  {| attendance := Some f_0_8; marks := Some f_0_75; internal_score := Some f_0_55;
     final_exam_score := None; result := Some label |}.

Definition unlabelled_row : row :=
  {| attendance := Some f_0_8; marks := Some f_0_75; internal_score := Some f_0_55;
     final_exam_score := None; result := None |}.

Definition ten_rows : DataFrame :=
  map sample_row [1; 0; 1; 1; 0; 1; 0; 1; 0; 1]%Z ++ [unlabelled_row].

Definition five_rows : DataFrame :=
  map sample_row [1; 0; 1; 1; 0]%Z ++ [unlabelled_row; unlabelled_row].

(** Twenty labelled rows, ten of each class. *)
Definition twenty_rows : DataFrame :=
  map sample_row [1; 0; 1; 0; 1; 0; 1; 0; 1; 0; 1; 0; 1; 0; 1; 0; 1; 0; 1; 0]%Z
  ++ [unlabelled_row].

Definition sample_artifact : artifact :=
  {| scaler := λ x, x; model := λ _, f_0_75 |}.

Definition sample_report : fit_report :=
  {| fitted := sample_artifact; accuracy := f_0_75; precision := f_0_8;
     recall := f_0_75; f1_score := f_0_75; roc_auc := f_0_8 |}.

(** The files of a backend at [/srv/backend]: the sample data set holds
    [df], nothing else exists. *)
Definition sample_files (df : DataFrame) (path : string) : csv_state :=
  if String.eqb path "/srv/backend/data/student_data_sample.csv"
  then CsvFrame df else CsvAbsent.

Definition empty_store : store :=
  {| model_file := None; metadata_file := FileAbsent |}.

(** ** Failures of the fit at the endpoint *)

(** The path [retrain] reads. *)
Definition retrain_csv_path (BASE_DIR : string) : string :=
  path_join (path_join BASE_DIR "data") "student_data_sample.csv".

(** The claim as the specification states it: whatever the fit raises, the
    endpoint reports the generic failure, status 500. *)
Definition fit_failures_are_generic : Prop :=
  ∀ (sklearn : DataFrame → outcome fit_report) BASE_DIR files
    MODEL_PATH METADATA_PATH utcnow w df e,
    files (retrain_csv_path BASE_DIR) = CsvFrame df →
    (10 ≤ length (dropna_result df))%nat →
    sklearn (dropna_result df) = Raise e →
    isinstance e Exception = true →
    ∃ detail,
      (retrain sklearn BASE_DIR files MODEL_PATH METADATA_PATH utcnow w).2
      = Raise (HTTPExc 500 detail).


(** Ten labelled rows, all of class 1. *)
Definition one_class_rows : DataFrame :=
  map sample_row [1; 1; 1; 1; 1; 1; 1; 1; 1; 1]%Z.

(** scikit-learn on a frame whose labels are all the same: the logistic
    regression refuses to fit a single class, with a [ValueError] (the text
    is that of scikit-learn 1.x with NumPy 1.x).  On the other frames [rep]
    stands for the result of the fit. *)
Definition one_class_error (c : Z) : exn :=
  Exn ValueError
    ("This solver needs samples of at least 2 classes in the data, but the data contains only one class: "
     +:+ pretty c).

Definition fit_two_classes (rep : fit_report) (df : DataFrame) : outcome fit_report :=
  match unique (labels df) with
  | [c] => Raise (one_class_error c)
  | _ => Ret rep
  end.

(** ** Sample requests *)

Definition trained_store : store :=
  {| model_file := Some sample_artifact;
     metadata_file := FileJson (JDict {[ "recommended_threshold" := JFloat f_0_6 ]}) |}.

Definition sample_request : Request.t :=
  {| Request.attendance := Some f_0_8; Request.marks := Some f_0_75;
     Request.internal_score := Some f_0_55; Request.final_exam_score := None |}.

(** ** Usable enrollments *)

(** An enrollment with its three features. *)
Definition usable (e : Enrollment.t) : Prop :=
  is_Some (Enrollment.attendance e) ∧ is_Some (Enrollment.marks e)
  ∧ is_Some (Enrollment.internal_score e).

#[local] Instance usable_dec e : Decision (usable e).
Proof. unfold usable. apply _. Defined.

Definition enrollment_ids (e : Enrollment.t) : Z * Z :=
  (Enrollment.student_id e, Enrollment.course_id e).

Definition input_ids (r : Input.t) : Z * Z :=
  (Input.student_id r, Input.course_id r).

Definition result_ids (r : Batch.t) : Z * Z :=
  (Batch.student_id r, Batch.course_id r).

Definition enrollment (student course : Z) (score : option float) : Enrollment.t :=
  {| Enrollment.student_id := student; Enrollment.course_id := course;
     Enrollment.attendance := Some f_0_8; Enrollment.marks := Some f_0_75;
     Enrollment.internal_score := score |}.

(** Five enrollments, two of them without [internal_score]. *)
Definition five_enrollments : list Enrollment.t :=
  [enrollment 1 10 (Some f_0_55); enrollment 2 10 None; enrollment 3 10 (Some f_0_4);
   enrollment 4 11 None; enrollment 5 11 (Some f_0_8)].

(** ** Notions and sample values for the further properties *)

(** The four source labels of the resolver. *)
Definition known_source (s : string) : Prop :=
  s = "env" ∨ s = "metadata:user" ∨ s = "metadata:recommended" ∨ s = "default".

(** A table of 25 students: the page is the numbers of its rows. *)
Definition sample_students (skip limit : Z) : outcome (list Z * Z) :=
  Ret (map (λ i, skip + Z.of_nat i)%Z (seq 0 (Z.to_nat limit)), 25%Z).

Definition training_row (student : Z) (label : option Z) : TrainingData.t :=
  {| TrainingData.student_id := student; TrainingData.course_id := 10;
     TrainingData.attendance := Some f_0_8; TrainingData.marks := Some f_0_75;
     TrainingData.internal_score := None; TrainingData.final_exam_score := None;
     TrainingData.result := label |}.

(** The data set file at a path replaced by [content]. *)
Definition with_file (files : string → csv_state) (path : string) (content : csv_state)
  : string → csv_state :=
  λ p, if String.eqb p path then content else files p.

(** The sum of the counts of [Series.value_counts()]. *)
Definition total_count (counts : list (Z * nat)) : nat :=
  foldr (λ kc acc, kc.2 + acc)%nat 0%nat counts.

(** * Properties *)

(** ** The reading of the metadata file *)

(** What [json.load] returns is the document of the file, which is within
    the limits of the parser. *)
Lemma open_and_load_returns f v :
  open_and_load f = Ret v →
  f = FileJson v ∧ nesting_fits max_nesting v = true ∧ integers_fit v = true.
Proof.
  destruct f as [ | | | | | |v']; try discriminate.
  unfold open_and_load.
  destruct (nesting_fits max_nesting v') eqn:Hn; [|discriminate].
  destruct (integers_fit v') eqn:Hi; [|discriminate].
  intros [= <-]. auto.
Qed.

Lemma open_and_load_json v :
  nesting_fits max_nesting v = true → integers_fit v = true →
  open_and_load (FileJson v) = Ret v.
Proof. intros H1 H2. unfold open_and_load. by rewrite H1, H2. Qed.

(** A document read beyond the limits raises one of the two errors. *)
Lemma open_and_load_json_raises v e :
  open_and_load (FileJson v) = Raise e → e = recursion_error ∨ e = int_limit_error.
Proof.
  unfold open_and_load.
  destruct (nesting_fits max_nesting v); simpl; [|intros [= <-]; by left].
  destruct (integers_fit v); simpl; [discriminate | intros [= <-]; by right].
Qed.

Lemma integers_fit_dict d :
  integers_fit (JDict d) = true ↔ map_Forall (λ _ x, integers_fit x = true) d.
Proof.
  change (integers_fit (JDict d))
    with (map_fold (λ (_ : string) x acc, integers_fit x && acc) true d).
  induction d as [|k x d Hk Hfirst IH] using map_first_key_ind.
  - rewrite map_fold_empty. split; [intros _; apply map_Forall_empty | done].
  - rewrite map_fold_insert_first_key by done.
    rewrite andb_true_iff, IH, map_Forall_insert by done. done.
Qed.

Lemma nesting_fits_dict levels d :
  nesting_fits (S levels) (JDict d) = true
  ↔ map_Forall (λ _ x, nesting_fits levels x = true) d.
Proof.
  change (nesting_fits (S levels) (JDict d))
    with (map_fold (λ (_ : string) x acc, nesting_fits levels x && acc) true d).
  induction d as [|k x d Hk Hfirst IH] using map_first_key_ind.
  - rewrite map_fold_empty. split; [intros _; apply map_Forall_empty | done].
  - rewrite map_fold_insert_first_key by done.
    rewrite andb_true_iff, IH, map_Forall_insert by done. done.
Qed.

(** Setting a key of an object to a number or a string keeps the object
    within the limits. *)
Lemma open_and_load_insert d k x :
  open_and_load (FileJson (JDict d)) = Ret (JDict d) →
  (∀ levels, nesting_fits levels x = true) → integers_fit x = true →
  open_and_load (FileJson (JDict (<[k := x]> d))) = Ret (JDict (<[k := x]> d)).
Proof.
  intros Hd Hx1 Hx2. apply open_and_load_returns in Hd as (_ & Hn & Hi).
  apply open_and_load_json.
  - change max_nesting with (S 998) in *.
    apply nesting_fits_dict. apply nesting_fits_dict in Hn.
    by apply map_Forall_insert_2.
  - apply integers_fit_dict. apply integers_fit_dict in Hi.
    by apply map_Forall_insert_2.
Qed.

Lemma open_and_load_empty : open_and_load (FileJson (JDict ∅)) = Ret (JDict ∅).
Proof. reflexivity. Qed.

(** [within_digits] counts decimal digits. *)
Lemma within_digits_spec digits n :
  (0 ≤ n)%Z →
  within_digits (S digits) n = true ↔ (n < 10 ^ Z.of_nat (S digits))%Z.
Proof.
  revert n. induction digits as [|k IH]; intros n Hn.
  - simpl. rewrite orb_false_r, Z.ltb_lt. reflexivity.
  - change (within_digits (S (S k)) n)
      with ((n <? 10)%Z || within_digits (S k) (n / 10)%Z).
    rewrite orb_true_iff, Z.ltb_lt, IH by (apply Z.div_pos; lia).
    rewrite (Nat2Z.inj_succ (S k)), Z.pow_succ_r by lia.
    pose proof (Z.pow_pos_nonneg 10 (Z.of_nat (S k)) ltac:(lia) ltac:(lia)) as Hpow.
    split.
    + intros [H|H]; [lia|].
      pose proof (Z.mul_succ_div_gt n 10 ltac:(lia)). lia.
    + intros H. right. apply Z.div_lt_upper_bound; lia.
Qed.

(** ** The priority chain of the threshold resolver *)

(** [float(s)] raises nothing but [ValueError]. *)
Lemma float_of_str_raises s e :
  float_of_str s = Raise e → isinstance e ValueError = true.
Proof.
  unfold float_of_str.
  destruct (_ ≫= _) as [t|]; [discriminate|].
  intros [= <-]. reflexivity.
Qed.

(** The first level never raises, and takes the override exactly when the
    chain does. *)
Lemma resolve_from_env_spec PRED_THRESHOLD :
  resolve_from_env PRED_THRESHOLD
  = Ret ((λ t, (t, "env")) <$> env_override PRED_THRESHOLD).
Proof.
  destruct PRED_THRESHOLD as [s|]; [|reflexivity].
  unfold resolve_from_env, env_override.
  case_bool_decide as Hs.
  - destruct (float_of_str s) as [t|e] eqn:Hf; simpl.
    + destruct (strictly_between_0_and_1 t); reflexivity.
    + rewrite (float_of_str_raises _ _ Hf). reflexivity.
  - subst s. reflexivity.
Qed.

(** An accepted override wins whatever the metadata file holds. *)
Lemma resolve_env_wins PRED_THRESHOLD f t :
  env_override PRED_THRESHOLD = Some t →
  _resolve_threshold_with_source PRED_THRESHOLD f = Ret (t, "env").
Proof.
  intros H. unfold _resolve_threshold_with_source.
  rewrite resolve_from_env_spec, H. reflexivity.
Qed.

Lemma persisted_threshold_dict d key :
  persisted_threshold (FileJson (JDict d)) key = accepted (dict_get d key).
Proof.
  unfold persisted_threshold, dict_get.
  destruct (d !! key); reflexivity.
Qed.

Lemma is_valid_threshold_true v :
  is_valid_threshold v = Ret true →
  ∃ t, accepted v = Some t ∧ to_float v = Ret t.
Proof.
  destruct v as [ |b|n|t| | | ]; simpl; try discriminate.
  - destruct b; discriminate.
  - unfold is_valid_threshold; simpl.
    destruct (float_of_int n) as [t|]; simpl; [|discriminate].
    intros [= H]. rewrite H. eauto.
  - unfold is_valid_threshold; simpl. intros [= H]. rewrite H. eauto.
Qed.

Lemma is_valid_threshold_false v :
  is_valid_threshold v = Ret false → accepted v = None.
Proof.
  destruct v as [ |b|n|t| | | ]; simpl; try reflexivity.
  - unfold is_valid_threshold; simpl.
    destruct (float_of_int n) as [t|]; simpl; [|discriminate].
    intros [= H]. rewrite H. reflexivity.
  - unfold is_valid_threshold; simpl. intros [= H]. rewrite H. reflexivity.
Qed.

Lemma is_valid_threshold_raises v e :
  is_valid_threshold v = Raise e → e = overflow_error.
Proof.
  destruct v as [ |b|n|t| | | ]; try discriminate.
  unfold is_valid_threshold, to_float, float_of_int, overflow_error; simpl.
  destruct (binary_normalize prec emax n 0 false); simpl; congruence.
Qed.

(** The levels of the metadata file: what lines 98-110 return is what the
    chain gives without an override, and they raise in four ways only. *)
Lemma resolve_from_metadata_spec f :
  match resolve_from_metadata f with
  | Ret r => default (f_0_6, "default") r = priority_chain None f
  | Raise e =>
      (f = FileUndecodable ∧ class_of e = UnicodeDecodeError)
      ∨ e = int_limit_error ∨ e = recursion_error ∨ e = overflow_error
  end.
Proof.
  destruct f as [ | | | | | |v];
    try reflexivity; try (left; split; reflexivity); try (right; auto; fail).
  unfold resolve_from_metadata, priority_chain.
  change (path_exists (FileJson v)) with true. cbv iota.
  change (env_override None) with (@None float). cbv iota.
  destruct (open_and_load (FileJson v)) as [v'|e] eqn:Hload.
  2:{ apply open_and_load_json_raises in Hload as [-> | ->]; simpl; auto. }
  apply open_and_load_returns in Hload as ([= <-] & _ & _).
  destruct v as [ | | | | | |d]; try reflexivity.
  rewrite !persisted_threshold_dict. simpl.
  destruct (is_valid_threshold (dict_get d "user_threshold")) as [[]|e] eqn:Hu; simpl.
  - apply is_valid_threshold_true in Hu as (t & -> & ->). reflexivity.
  - apply is_valid_threshold_false in Hu as ->.
    destruct (is_valid_threshold (dict_get d "recommended_threshold"))
      as [[]|e] eqn:Hr; simpl.
    + apply is_valid_threshold_true in Hr as (t & -> & ->). reflexivity.
    + apply is_valid_threshold_false in Hr as ->. reflexivity.
    + apply is_valid_threshold_raises in Hr as ->. simpl. auto.
  - apply is_valid_threshold_raises in Hu as ->. simpl. auto.
Qed.

(** Whenever the resolver returns, it returns the first satisfied level of
    the chain. *)
Lemma resolve_follows_chain PRED_THRESHOLD f answer :
  _resolve_threshold_with_source PRED_THRESHOLD f = Ret answer →
  answer = priority_chain PRED_THRESHOLD f.
Proof.
  unfold _resolve_threshold_with_source, priority_chain.
  rewrite resolve_from_env_spec.
  destruct (env_override PRED_THRESHOLD) as [t|]; simpl; [congruence|].
  pose proof (resolve_from_metadata_spec f) as H.
  destruct (resolve_from_metadata f) as [r|e]; simpl; [|discriminate].
  unfold priority_chain in H. change (env_override None) with (@None float) in H.
  destruct r as [r|]; intros [= <-]; exact H.
Qed.

Lemma is_valid_threshold_converts v :
  converts v → ∃ b, is_valid_threshold v = Ret b.
Proof.
  intros Hv. destruct v as [ |b|n|t| | | ]; try (eexists; reflexivity).
  specialize (Hv n eq_refl). unfold is_valid_threshold; simpl.
  destruct (float_of_int n); [eexists; reflexivity | discriminate].
Qed.

(** On a digestible metadata file the resolver returns, and returns the
    first satisfied level of the chain: a missing file, an unreadable file
    and a text that is not JSON all fall through to the next level. *)
Lemma resolve_returns_chain PRED_THRESHOLD f :
  digestible f →
  _resolve_threshold_with_source PRED_THRESHOLD f
  = Ret (priority_chain PRED_THRESHOLD f).
Proof.
  intros Hf.
  destruct (_resolve_threshold_with_source PRED_THRESHOLD f) as [answer|e] eqn:H.
  { f_equal. eauto using resolve_follows_chain. }
  exfalso. revert H. unfold _resolve_threshold_with_source.
  rewrite resolve_from_env_spec.
  destruct (env_override PRED_THRESHOLD); simpl; [discriminate|].
  destruct f as [ | | | | | |v]; try discriminate; try (by destruct Hf).
  destruct Hf as [Hload Hv].
  unfold resolve_from_metadata.
  change (path_exists (FileJson v)) with true. cbv iota. rewrite Hload.
  destruct v as [ | | | | | |d]; try discriminate.
  destruct Hv as [Hu Hr].
  apply is_valid_threshold_converts in Hu as [bu Hu].
  apply is_valid_threshold_converts in Hr as [br Hr].
  simpl. rewrite Hu; simpl.
  destruct bu.
  - apply is_valid_threshold_true in Hu as (t & _ & ->). discriminate.
  - rewrite Hr; simpl. destruct br; [|discriminate].
    apply is_valid_threshold_true in Hr as (t & _ & ->). discriminate.
Qed.

(** The four examples of section 8. *)
Example resolve_default :
  _resolve_threshold_with_source None FileAbsent = Ret (f_0_6, "default").
Proof. reflexivity. Qed.

Example resolve_env :
  _resolve_threshold_with_source (Some "0.75") FileAbsent = Ret (f_0_75, "env").
Proof. vm_compute. reflexivity. Qed.

Example resolve_recommended :
  _resolve_threshold_with_source None
    (FileJson (JDict {[ "recommended_threshold" := JFloat f_0_55 ]}))
  = Ret (f_0_55, "metadata:recommended").
Proof. vm_compute. reflexivity. Qed.

Example resolve_user_beats_recommended :
  _resolve_threshold_with_source None
    (FileJson (JDict (<[ "user_threshold" := JFloat f_0_8 ]>
                        {[ "recommended_threshold" := JFloat f_0_55 ]})))
  = Ret (f_0_8, "metadata:user").
Proof. vm_compute. reflexivity. Qed.

(** A malformed or out-of-range value of the environment is skipped. *)
Example resolve_env_malformed :
  _resolve_threshold_with_source (Some "sixty percent") FileAbsent
  = Ret (f_0_6, "default").
Proof. vm_compute. reflexivity. Qed.

Example resolve_env_out_of_range :
  _resolve_threshold_with_source (Some "1.5")
    (FileJson (JDict {[ "recommended_threshold" := JFloat f_0_55 ]}))
  = Ret (f_0_55, "metadata:recommended").
Proof. vm_compute. reflexivity. Qed.

(** [float] reads the decimal digits and the white space of Unicode, and
    not the separators 28 to 31 of ASCII: an override in Arabic-Indic
    digits behind a no-break space is taken, one behind a file separator
    is skipped. *)
Example resolve_env_unicode_digits :
  _resolve_threshold_with_source (Some " ٠.٧٥") FileAbsent = Ret (f_0_75, "env").
Proof. vm_compute. reflexivity. Qed.

Example resolve_env_file_separator :
  _resolve_threshold_with_source (Some (String (ascii_of_nat 28) "0.75")) FileAbsent
  = Ret (f_0_6, "default").
Proof. vm_compute. reflexivity. Qed.

(** C1. The resolver is to return the first satisfied level of the chain
    for every environment and every state of the metadata file.  With no
    override and a metadata file whose [user_threshold] is the integer
    10^400, no level but the default is satisfied, so the chain gives 0.6
    with source default; the code raises [OverflowError] from
    [float(user_threshold)], which the [except] clause does not name. *)
Theorem resolve_raises_where_chain_gives_default :
  _resolve_threshold_with_source None huge_user_threshold = Raise overflow_error
  ∧ priority_chain None huge_user_threshold = (f_0_6, "default").
Proof. split; vm_compute; reflexivity. Qed.

(** C7. The resolver is never to raise, whatever the state of the metadata
    file.  On a metadata file whose bytes are not UTF-8 the read raises
    [UnicodeDecodeError], a [ValueError] that is neither a
    [JSONDecodeError] nor an [OSError], and the resolver raises it. *)
Theorem resolve_raises_on_undecodable_metadata :
  _resolve_threshold_with_source None FileUndecodable
  = Raise (Exn UnicodeDecodeError "'utf-8' codec can't decode byte")
  ∧ isinstance (Exn UnicodeDecodeError "'utf-8' codec can't decode byte") JSONDecodeError = false
  ∧ isinstance (Exn UnicodeDecodeError "'utf-8' codec can't decode byte") OSError = false.
Proof. repeat split; reflexivity. Qed.

(** The resolver raises in four ways only: the bytes of the metadata file
    do not decode, the parser meets one of its two limits, or a persisted
    threshold is an integer too large for a double. *)
Lemma resolve_raises_only PRED_THRESHOLD f e :
  _resolve_threshold_with_source PRED_THRESHOLD f = Raise e →
  (f = FileUndecodable ∧ class_of e = UnicodeDecodeError)
  ∨ e = int_limit_error ∨ e = recursion_error ∨ e = overflow_error.
Proof.
  unfold _resolve_threshold_with_source.
  rewrite resolve_from_env_spec.
  destruct (env_override PRED_THRESHOLD); simpl; [discriminate|].
  pose proof (resolve_from_metadata_spec f) as H.
  destruct (resolve_from_metadata f) as [[r|]|e']; simpl; try discriminate.
  intros [= <-]. exact H.
Qed.

(** The two limits of the parser at the resolver: neither error is a
    [JSONDecodeError] or an [OSError]. *)
Example resolve_raises_on_long_integer :
  _resolve_threshold_with_source None FileIntTooLong = Raise int_limit_error
  ∧ _resolve_threshold_with_source None FileTooDeep = Raise recursion_error.
Proof. split; reflexivity. Qed.

(** An integer is converted when it has at most 4300 digits; one of 4301
    digits is not. *)
Lemma integers_fit_int n :
  integers_fit (JInt n) = true ↔ (Z.abs n < 10 ^ 4300)%Z.
Proof.
  assert (Z.of_nat (S 4299) = 4300%Z) as Hd by reflexivity.
  rewrite <- Hd. apply (within_digits_spec 4299), Z.abs_nonneg.
Qed.

Example integers_fit_4301_digits : integers_fit (JInt (- 10 ^ 4300)) = false.
Proof.
  apply not_true_is_false. intros H. apply integers_fit_int in H.
  rewrite Z.abs_opp, Z.abs_eq in H by (apply Z.pow_nonneg; discriminate).
  exact (Z.lt_irrefl _ H).
Qed.

(** The states that do degrade: a missing file, an unreadable file and a
    text that is not JSON give the default when there is no override. *)
Lemma resolve_degrades_to_default PRED_THRESHOLD f :
  env_override PRED_THRESHOLD = None →
  f = FileAbsent ∨ f = FileUnreadable ∨ f = FileNotJson →
  _resolve_threshold_with_source PRED_THRESHOLD f = Ret (f_0_6, "default").
Proof.
  intros He Hf. rewrite resolve_returns_chain.
  - unfold priority_chain. rewrite He.
    destruct Hf as [->|[->| ->]]; reflexivity.
  - destruct Hf as [->|[->| ->]]; exact I.
Qed.

(** ** The threshold update *)

(** The dictionary an update starts from is within the limits of the
    parser: it was loaded, or it is empty. *)
Lemma load_metadata_for_update_loadable f metadata :
  load_metadata_for_update f = Ret metadata →
  open_and_load (FileJson (JDict metadata)) = Ret (JDict metadata).
Proof.
  unfold load_metadata_for_update.
  destruct (path_exists f); [|intros [= <-]; apply open_and_load_empty].
  destruct (open_and_load f) as [v|e] eqn:Hload; intros H; simpl in H.
  - apply open_and_load_returns in Hload as (-> & Hn & Hi).
    destruct v; injection H as <-; try apply open_and_load_empty.
    by apply open_and_load_json.
  - destruct (isinstance e JSONDecodeError); [|discriminate].
    injection H as <-. apply open_and_load_empty.
Qed.

(** The dictionary an update starts from is read again from the file it
    wrote. *)
Lemma load_metadata_for_update_written d :
  open_and_load (FileJson (JDict d)) = Ret (JDict d) →
  load_metadata_for_update (FileJson (JDict d)) = Ret d.
Proof.
  intros H. unfold load_metadata_for_update.
  change (path_exists (FileJson (JDict d))) with true. cbv iota.
  rewrite H. reflexivity.
Qed.

(** What an update writes is within the limits of the parser. *)
Lemma update_threshold_written_loadable metadata threshold stamp :
  open_and_load (FileJson (JDict metadata)) = Ret (JDict metadata) →
  open_and_load
    (FileJson (JDict (<[ "user_threshold_set_at" := JStr stamp ]>
                        (<[ "user_threshold" := JFloat threshold ]> metadata))))
  = Ret (JDict (<[ "user_threshold_set_at" := JStr stamp ]>
                  (<[ "user_threshold" := JFloat threshold ]> metadata))).
Proof.
  intros H. apply open_and_load_insert; [|done..].
  apply open_and_load_insert; done.
Qed.

(** *** The directory of a path *)

Lemma drop_while_nil P l : drop_while P l = [] ↔ forallb P l = true.
Proof.
  induction l as [|c l IH]; simpl; [by split|].
  destruct (P c); simpl; [exact IH | split; discriminate].
Qed.

Lemma forallb_rev {A} (P : A → bool) (l : list A) :
  forallb P (rev l) = forallb P l.
Proof.
  induction l as [|c l IH]; [reflexivity|].
  simpl. rewrite forallb_app, IH. simpl. rewrite andb_true_r. apply andb_comm.
Qed.

Lemma string_of_list_ascii_nil l : string_of_list_ascii l = "" ↔ l = [].
Proof. destruct l; simpl; split; done. Qed.

Lemma rev_nil_iff {A} (l : list A) : rev l = [] ↔ l = [].
Proof.
  split; [|by intros ->]. intros H. apply (f_equal (@rev A)) in H.
  by rewrite rev_involutive in H.
Qed.

(** [os.path.dirname(p)] is empty exactly when [p] holds no slash. *)
Lemma os_path_dirname_empty p :
  os_path_dirname p = ""
  ↔ forallb (λ c, negb (is_slash c)) (list_ascii_of_string p) = true.
Proof.
  unfold os_path_dirname. cbv zeta.
  rewrite string_of_list_ascii_nil, rev_nil_iff.
  rewrite <- (forallb_rev (λ c, negb (is_slash c)) (list_ascii_of_string p)).
  rewrite <- (drop_while_nil (λ c, negb (is_slash c)) (rev (list_ascii_of_string p))).
  generalize (drop_while (λ c, negb (is_slash c)) (rev (list_ascii_of_string p))).
  intros [|c head]; [reflexivity|].
  destruct (forallb is_slash (c :: head)) eqn:Hall; [reflexivity|].
  rewrite drop_while_nil, Hall. split; discriminate.
Qed.

Example os_path_dirname_samples :
  map os_path_dirname ["metadata.json"; "/a//b"; "//b"; "a/b/"; "a///"; "///"]
  = [""; "/a"; "//"; "a/b"; "a"; "///"].
Proof. vm_compute. reflexivity. Qed.

(** A directory that has a name is made. *)
Lemma os_makedirs_named name : name ≠ "" → os_makedirs name = Ret tt.
Proof. intros H. unfold os_makedirs. by destruct (String.eqb_spec name ""). Qed.

Lemma os_makedirs_raises name e :
  os_makedirs name = Raise e → name = "" ∧ e = no_directory_error.
Proof.
  unfold os_makedirs. destruct (String.eqb_spec name ""); [|discriminate].
  intros [= <-]. done.
Qed.


(** Whenever the update raises, the file is as it was. *)
Lemma update_threshold_raises_unchanged METADATA_PATH threshold utcnow f f' e :
  update_threshold METADATA_PATH threshold utcnow f = (f', Raise e) → f' = f.
Proof.
  unfold update_threshold.
  destruct (negb (strictly_between_0_and_1 threshold)); [by intros [= <- _]|].
  destruct (load_metadata_for_update f); [|by intros [= <- _]].
  destruct (os_makedirs _); [discriminate | by intros [= <- _]].
Qed.




(** With no metadata file the written object has exactly the two keys. *)
Lemma update_threshold_creates METADATA_PATH threshold utcnow :
  strictly_between_0_and_1 threshold = true →
  os_path_dirname METADATA_PATH ≠ "" →
  update_threshold METADATA_PATH threshold utcnow FileAbsent
  = (FileJson (JDict (<[ "user_threshold_set_at" := JStr (utcnow +:+ "Z") ]>
                        {[ "user_threshold" := JFloat threshold ]})),
     Ret (threshold, "metadata")).
Proof.
  intros Ht Hdir. unfold update_threshold.
  rewrite Ht. simpl. rewrite (os_makedirs_named _ Hdir). reflexivity.
Qed.




(** A text that is not a JSON document is discarded: the update succeeds
    and writes the two keys only. *)
Lemma update_threshold_replaces_invalid_json METADATA_PATH threshold utcnow :
  strictly_between_0_and_1 threshold = true →
  os_path_dirname METADATA_PATH ≠ "" →
  update_threshold METADATA_PATH threshold utcnow FileNotJson
  = (FileJson (JDict (<[ "user_threshold_set_at" := JStr (utcnow +:+ "Z") ]>
                        {[ "user_threshold" := JFloat threshold ]})),
     Ret (threshold, "metadata")).
Proof.
  intros Ht Hdir. unfold update_threshold.
  rewrite Ht. simpl. rewrite (os_makedirs_named _ Hdir). reflexivity.
Qed.

(** C10. An update on an existing metadata file whose contents are not
    valid JSON is to succeed and write the two keys only.  When the
    contents are bytes that are not UTF-8, the read raises
    [UnicodeDecodeError], which [except json.JSONDecodeError] does not
    catch: the update raises it and writes nothing, whatever the metadata
    path. *)
Theorem update_threshold_raises_on_undecodable_metadata METADATA_PATH :
  strictly_between_0_and_1 f_0_4 = true
  ∧ update_threshold METADATA_PATH f_0_4 "2024-05-01T10:00:00" FileUndecodable
    = (FileUndecodable, Raise (Exn UnicodeDecodeError "'utf-8' codec can't decode byte"))
  ∧ isinstance (Exn UnicodeDecodeError "'utf-8' codec can't decode byte") JSONDecodeError = false.
Proof. repeat split; reflexivity. Qed.

(** With a value in range, the update raises only when the file exists and
    cannot be read or decoded, when the parser meets one of its limits, or
    when the metadata path has no directory part; it then writes
    nothing. *)
Lemma update_threshold_raises_only METADATA_PATH threshold utcnow f f' e :
  strictly_between_0_and_1 threshold = true →
  update_threshold METADATA_PATH threshold utcnow f = (f', Raise e) →
  f' = f
  ∧ (f = FileUnreadable ∨ f = FileUndecodable
     ∨ e = int_limit_error ∨ e = recursion_error
     ∨ (os_path_dirname METADATA_PATH = "" ∧ e = no_directory_error)).
Proof.
  intros Ht H. split; [by eapply update_threshold_raises_unchanged|].
  revert H. unfold update_threshold. rewrite Ht; simpl.
  destruct (load_metadata_for_update f) as [metadata|e0] eqn:Hload.
  - destruct (os_makedirs _) as [|e1] eqn:Hmk; [discriminate|].
    intros [= _ <-]. apply os_makedirs_raises in Hmk. auto 6.
  - intros [= _ <-]. revert Hload. unfold load_metadata_for_update.
    destruct f as [ | | | | | |v]; try discriminate;
      try (intros [= <-]; auto 6; fail).
    change (path_exists (FileJson v)) with true. cbv iota.
    destruct (open_and_load (FileJson v)) as [[]|e1] eqn:Hv; try discriminate.
    apply open_and_load_json_raises in Hv as [-> | ->]; intros [= <-]; auto 6.
Qed.

(** The two limits of the parser at the update, and a metadata path
    without a directory part: the update raises and writes nothing. *)
Example update_threshold_raises_on_long_integer :
  update_threshold sample_metadata_path f_0_4 "2024-05-01T10:00:00" FileIntTooLong
  = (FileIntTooLong, Raise int_limit_error).
Proof. reflexivity. Qed.

Example update_threshold_bare_path :
  update_threshold "metadata.json" f_0_4 "2024-05-01T10:00:00" FileAbsent
  = (FileAbsent, Raise no_directory_error).
Proof. vm_compute. reflexivity. Qed.

(** ** Training *)

Lemma labels_length (df : DataFrame) :
  Forall (λ r, is_Some (result r)) df → length (labels df) = length df.
Proof.
  unfold labels. induction 1 as [|r df [z Hz] _ IH]; [reflexivity|].
  simpl. rewrite Hz. simpl. by f_equal.
Qed.

Lemma labels_dropna_length df :
  length (labels (dropna_result df)) = length (dropna_result df).
Proof.
  apply labels_length, Forall_forall. intros r Hr.
  by apply list_elem_of_filter in Hr as [? _].
Qed.

Lemma insert_by_count_cons x l : ∃ y l', insert_by_count x l = y :: l'.
Proof. destruct l as [|y l]; simpl; [|destruct (_ <? _)%nat]; eauto. Qed.

(** A series with a value has a count. *)
Lemma value_counts_cons l :
  l ≠ [] → ∃ kc rest, value_counts l = kc :: rest.
Proof.
  intros Hl. unfold value_counts.
  destruct l as [|x l]; [done|]. simpl. apply insert_by_count_cons.
Qed.

(** [json.dump] of the metadata of a run over a frame with a label raises
    on the first count. *)
Lemma json_dump_metadata_raises rep df :
  labels df ≠ [] → json_dump (metadata_dict rep df) = Raise int64_type_error.
Proof.
  intros Hl. apply value_counts_cons in Hl as ([k c] & rest & Hvc).
  unfold metadata_dict. rewrite Hvc. reflexivity.
Qed.

(** With counts that are [int], the same dictionary would be written. *)
Example json_dump_int_counts :
  json_dump (PDict [(KStr "samples_used", PInt 3);
                    (KStr "class_counts", PDict [(KInt 1, PInt 2); (KInt 0, PInt 1)])])
  = Ret (JDict {[ "samples_used" := JInt 3;
                  "class_counts" := JDict {[ "1" := JInt 2; "0" := JInt 1 ]} ]}).
Proof. vm_compute. reflexivity. Qed.

Example value_counts_ten_rows :
  value_counts (labels (dropna_result ten_rows)) = [(1%Z, 6%nat); (0%Z, 4%nat)].
Proof. vm_compute. reflexivity. Qed.

(** Classes that occur equally often stay in the order of their first
    occurrence. *)
Example value_counts_ties :
  value_counts [0; 1; 2; 1; 0; 2; 2]%Z = [(2%Z, 3%nat); (0%Z, 2%nat); (1%Z, 2%nat)].
Proof. vm_compute. reflexivity. Qed.

(** Past the two checks, [train_from_csv] is [train_model] on the rows
    with a label. *)
Lemma train_from_csv_enough_rows
    (sklearn : DataFrame → outcome fit_report) (BASE_DIR : string)
    (files : string → csv_state) (path model_path metadata_path : string)
    (w : store) (df : DataFrame) :
  files path = CsvFrame df →
  (10 ≤ length (dropna_result df))%nat →
  train_from_csv sklearn BASE_DIR files (Some path) model_path metadata_path w
  = train_model sklearn (dropna_result df) model_path metadata_path w.
Proof.
  intros Hfile Hlen. unfold train_from_csv.
  by rewrite Hfile, (proj2 (Nat.ltb_ge _ _) Hlen).
Qed.

(** A run whose fit succeeds on a frame with a label: with a model path
    that has no directory part it raises at line 63 and writes nothing;
    with any other it saves the model, empties the metadata file and raises
    from [json.dump]. *)
Lemma train_model_fitted
    (sklearn : DataFrame → outcome fit_report)
    (df : DataFrame) (model_path metadata_path : string) (w : store) (rep : fit_report) :
  sklearn df = Ret rep →
  labels df ≠ [] →
  train_model sklearn df model_path metadata_path w
  = if bool_decide (os_path_dirname model_path = "")
    then (w, Raise no_directory_error)
    else ({| model_file := Some (fitted rep); metadata_file := FileNotJson |},
          Raise int64_type_error).
Proof.
  intros Hfit Hl. unfold train_model. rewrite Hfit.
  case_bool_decide as Hdir.
  - rewrite Hdir. reflexivity.
  - rewrite (os_makedirs_named _ Hdir), (json_dump_metadata_raises _ _ Hl).
    reflexivity.
Qed.

Lemma labels_enough_rows df :
  (10 ≤ length (dropna_result df))%nat → labels (dropna_result df) ≠ [].
Proof.
  intros Hlen Hnil. apply (f_equal length) in Hnil.
  rewrite labels_dropna_length in Hnil. simpl in Hnil. lia.
Qed.

(** C4. [train_from_csv] raises [FileNotFoundError] naming the path when
    the data set does not exist; on a data set that loads with fewer than
    10 rows left after the rows without a label are dropped, it raises the
    [ValueError] whose message names the number of rows left; with 10 rows
    or more left it raises neither and runs [train_model] on them. *)
Theorem train_from_csv_preconditions
    (sklearn : DataFrame → outcome fit_report) (BASE_DIR : string)
    (files : string → csv_state) (csv_path : option string)
    (model_path metadata_path : string) (w : store) :
  let path := default (path_join (DATA_DIR BASE_DIR) "student_data_sample.csv") csv_path in
  (files path = CsvAbsent →
     train_from_csv sklearn BASE_DIR files csv_path model_path metadata_path w
     = (w, Raise (Exn FileNotFoundError ("Dataset not found at " +:+ path)))) ∧
  (∀ df, files path = CsvFrame df → (length (dropna_result df) < 10)%nat →
     train_from_csv sklearn BASE_DIR files csv_path model_path metadata_path w
     = (w, Raise (Exn ValueError
              ("Insufficient data for training. Need at least 10 samples, got "
               +:+ pretty (length (dropna_result df)))))) ∧
  (∀ df, files path = CsvFrame df → (10 ≤ length (dropna_result df))%nat →
     train_from_csv sklearn BASE_DIR files csv_path model_path metadata_path w
     = train_model sklearn (dropna_result df) model_path metadata_path w).
Proof.
  intros path. unfold train_from_csv.
  replace (match csv_path with Some p => p | None => _ end) with path
    by (destruct csv_path; reflexivity).
  repeat split.
  - intros ->. reflexivity.
  - intros df -> Hlen. by rewrite (proj2 (Nat.ltb_lt _ _) Hlen).
  - intros df -> Hlen. by rewrite (proj2 (Nat.ltb_ge _ _) Hlen).
Qed.

Lemma train_from_csv_preconditions_witness :
  train_from_csv (λ _, Ret sample_report) "/srv/backend" (sample_files five_rows)
    (Some "/nowhere/data.csv") sample_model_path sample_metadata_path empty_store
  = (empty_store, Raise (Exn FileNotFoundError "Dataset not found at /nowhere/data.csv"))
  ∧ train_from_csv (λ _, Ret sample_report) "/srv/backend" (sample_files five_rows)
      None sample_model_path sample_metadata_path empty_store
    = (empty_store, Raise (Exn ValueError
         "Insufficient data for training. Need at least 10 samples, got 5"))
  ∧ train_from_csv (λ _, Ret sample_report) "/srv/backend" (sample_files ten_rows)
      None sample_model_path sample_metadata_path empty_store
    = train_model (λ _, Ret sample_report) (dropna_result ten_rows)
        sample_model_path sample_metadata_path empty_store.
Proof.
  destruct (train_from_csv_preconditions (λ _, Ret sample_report) "/srv/backend"
              (sample_files five_rows) (Some "/nowhere/data.csv")
              sample_model_path sample_metadata_path empty_store)
    as (Habsent & _ & _).
  destruct (train_from_csv_preconditions (λ _, Ret sample_report) "/srv/backend"
              (sample_files five_rows) None
              sample_model_path sample_metadata_path empty_store)
    as (_ & Hfew & _).
  destruct (train_from_csv_preconditions (λ _, Ret sample_report) "/srv/backend"
              (sample_files ten_rows) None
              sample_model_path sample_metadata_path empty_store)
    as (_ & _ & Henough).
  split; [|split].
  - exact (Habsent eq_refl).
  - assert (length (dropna_result five_rows) < 10)%nat as Hlen by (vm_compute; lia).
    exact (Hfew five_rows eq_refl Hlen).
  - assert (10 ≤ length (dropna_result ten_rows))%nat as Hlen by (vm_compute; lia).
    exact (Henough ten_rows eq_refl Hlen).
Defined.

(** C5. A run whose fit and scoring succeed is to leave, as the metadata
    file, the object with [roc_auc], [samples_used], [class_counts] and
    [recommended_threshold] of 0.6.  On every data set that passes the
    precondition, no run does.  With a model path that has a directory
    part, the run saves the model and then raises [TypeError] from
    [json.dump], because the counts are [numpy.int64]; the metadata file,
    opened for writing before, is left without a JSON document.  With a
    model path that is a bare file name, the run raises
    [FileNotFoundError] from [os.makedirs] and writes nothing. *)
Theorem train_from_csv_metadata_dump_raises
    (sklearn : DataFrame → outcome fit_report) (BASE_DIR : string)
    (files : string → csv_state) (path MODEL_PATH METADATA_PATH : string) (w : store)
    (df : DataFrame) (rep : fit_report) :
  files path = CsvFrame df →
  (10 ≤ length (dropna_result df))%nat →
  sklearn (dropna_result df) = Ret rep →
  train_from_csv sklearn BASE_DIR files (Some path) MODEL_PATH METADATA_PATH w
  = if bool_decide (os_path_dirname MODEL_PATH = "")
    then (w, Raise no_directory_error)
    else ({| model_file := Some (fitted rep); metadata_file := FileNotJson |},
          Raise int64_type_error).
Proof.
  intros Hfile Hlen Hfit.
  rewrite (train_from_csv_enough_rows _ _ _ _ _ _ _ _ Hfile Hlen).
  apply train_model_fitted; [exact Hfit | by apply labels_enough_rows].
Qed.

Lemma train_from_csv_metadata_dump_raises_witness :
  train_from_csv (λ _, Ret sample_report) "/srv/backend" (sample_files twenty_rows)
    (Some "/srv/backend/data/student_data_sample.csv")
    sample_model_path sample_metadata_path
    {| model_file := None;
       metadata_file := FileJson (JDict {[ "user_threshold" := JFloat f_0_4 ]}) |}
  = ({| model_file := Some sample_artifact; metadata_file := FileNotJson |},
     Raise int64_type_error).
Proof.
  assert (10 ≤ length (dropna_result twenty_rows))%nat as Hlen by (vm_compute; lia).
  exact (train_from_csv_metadata_dump_raises (λ _, Ret sample_report) "/srv/backend"
           (sample_files twenty_rows) "/srv/backend/data/student_data_sample.csv"
           sample_model_path sample_metadata_path
           _ twenty_rows sample_report eq_refl Hlen eq_refl).
Defined.

(** The endpoint reports such a run as a training error, and a threshold
    the user had set is no longer found. *)
Example retrain_reports_type_error :
  retrain (λ _, Ret sample_report) "/srv/backend" (sample_files twenty_rows)
    sample_model_path sample_metadata_path "2024-05-01T10:00:00"
    {| model_file := None;
       metadata_file := FileJson (JDict {[ "user_threshold" := JFloat f_0_4 ]}) |}
  = ({| model_file := Some sample_artifact; metadata_file := FileNotJson |},
     Raise (HTTPExc 500
       "Training error: Object of type int64 is not JSON serializable")).
Proof. vm_compute. reflexivity. Qed.

Example resolve_after_failed_dump :
  _resolve_threshold_with_source None FileNotJson = Ret (f_0_6, "default").
Proof. reflexivity. Qed.

(** With a model path that is a bare file name, the endpoint reports the
    [FileNotFoundError] of [os.makedirs] as a missing data set, and the
    files are as they were. *)
Example retrain_bare_model_path :
  retrain (λ _, Ret sample_report) "/srv/backend" (sample_files twenty_rows)
    bare_model_path sample_metadata_path "2024-05-01T10:00:00"
    {| model_file := None;
       metadata_file := FileJson (JDict {[ "user_threshold" := JFloat f_0_4 ]}) |}
  = ({| model_file := None;
        metadata_file := FileJson (JDict {[ "user_threshold" := JFloat f_0_4 ]}) |},
     Raise (HTTPExc 404
       "CSV file not found. Please ensure student_data_sample.csv exists in /data.")).
Proof. vm_compute. reflexivity. Qed.

(** *** Failures of the fit at the endpoint *)

(** The two precondition failures at the endpoint: 404 and 400. *)
Lemma retrain_dataset_missing sklearn BASE_DIR files MODEL_PATH METADATA_PATH utcnow w :
  files (retrain_csv_path BASE_DIR) = CsvAbsent →
  retrain sklearn BASE_DIR files MODEL_PATH METADATA_PATH utcnow w
  = (w, Raise (HTTPExc 404
       "CSV file not found. Please ensure student_data_sample.csv exists in /data.")).
Proof.
  intros H. unfold retrain, train_from_csv. fold (retrain_csv_path BASE_DIR).
  rewrite H. reflexivity.
Qed.

Lemma retrain_insufficient_data sklearn BASE_DIR files MODEL_PATH METADATA_PATH utcnow w df :
  files (retrain_csv_path BASE_DIR) = CsvFrame df →
  (length (dropna_result df) < 10)%nat →
  retrain sklearn BASE_DIR files MODEL_PATH METADATA_PATH utcnow w
  = (w, Raise (HTTPExc 400
       ("Insufficient data for training. Need at least 10 samples, got "
        +:+ pretty (length (dropna_result df))))).
Proof.
  intros H Hlen. unfold retrain, train_from_csv. fold (retrain_csv_path BASE_DIR).
  rewrite H, (proj2 (Nat.ltb_lt _ _) Hlen). reflexivity.
Qed.

(** A data set without the label column: [dropna(subset=["result"])]
    raises [KeyError(['result'])], whose text is the [repr] of the list,
    and the endpoint reports the generic training error. *)
Example retrain_missing_label_column :
  retrain (λ _, Ret sample_report) "/srv/backend"
    (λ _, CsvUnloadable (Exn KeyError "['result']"))
    sample_model_path sample_metadata_path "2024-05-01T10:00:00" empty_store
  = (empty_store, Raise (HTTPExc 500 "Training error: ['result']")).
Proof. vm_compute. reflexivity. Qed.

(** An exception of the fit leaves [train_from_csv] as it is, before
    anything is written. *)
Lemma train_from_csv_fit_raises
    (sklearn : DataFrame → outcome fit_report) (BASE_DIR : string)
    (files : string → csv_state) (path MODEL_PATH METADATA_PATH : string)
    (w : store) (df : DataFrame) (e : exn) :
  files path = CsvFrame df →
  (10 ≤ length (dropna_result df))%nat →
  sklearn (dropna_result df) = Raise e →
  train_from_csv sklearn BASE_DIR files (Some path) MODEL_PATH METADATA_PATH w
  = (w, Raise e).
Proof.
  intros Hfile Hlen Hfit.
  rewrite (train_from_csv_enough_rows _ _ _ _ _ _ _ _ Hfile Hlen).
  unfold train_model. by rewrite Hfit.
Qed.

(** No exception is both a [ValueError] and a [FileNotFoundError]. *)
Lemma value_error_is_not_file_not_found e :
  isinstance e ValueError = true → isinstance e FileNotFoundError = false.
Proof.
  unfold isinstance. destruct (class_of e); intros H;
    first [discriminate H | reflexivity].
Qed.

(** On ten labelled rows of one class the fit raises a [ValueError], and
    the endpoint answers 400 with the text of that error. *)
Example retrain_fit_value_error :
  retrain (fit_two_classes sample_report) "/srv/backend" (sample_files one_class_rows)
    sample_model_path sample_metadata_path "2024-05-01T10:00:00" empty_store
  = (empty_store, Raise (HTTPExc 400 (str (one_class_error 1)))).
Proof. vm_compute. reflexivity. Qed.

(** C6 as stated does not hold: the [ValueError] that the fit raises on
    ten labelled rows of one class is reported with status 400, as the
    insufficient data set is, and not as the generic failure. *)
Lemma fit_value_error_is_not_generic :
  (∃ detail,
     retrain (fit_two_classes sample_report) "/srv/backend" (sample_files one_class_rows)
       sample_model_path sample_metadata_path "2024-05-01T10:00:00" empty_store
     = (empty_store, Raise (HTTPExc 400 detail)))
  ∧ (∃ detail,
       retrain (fit_two_classes sample_report) "/srv/backend" (sample_files five_rows)
         sample_model_path sample_metadata_path "2024-05-01T10:00:00" empty_store
       = (empty_store, Raise (HTTPExc 400 detail)))
  ∧ ¬ fit_failures_are_generic.
Proof.
  split; [eexists; vm_compute; reflexivity|].
  split; [eexists; vm_compute; reflexivity|].
  intros H.
  destruct (H (fit_two_classes sample_report) "/srv/backend"
              (sample_files one_class_rows)
              sample_model_path sample_metadata_path "2024-05-01T10:00:00" empty_store
              one_class_rows (one_class_error 1)) as [detail Hd].
  - reflexivity.
  - vm_compute; lia.
  - reflexivity.
  - reflexivity.
  - rewrite retrain_fit_value_error in Hd. discriminate.
Qed.

(** C6, amended. An exception raised by the fit or the scoring leaves
    [train_from_csv] as it is, with nothing written.  At the endpoint a
    [ValueError] among them is reported with status 400 and its own text,
    as the insufficient data set is; a [FileNotFoundError] with status
    404, as the missing data set is; every other [Exception] as the generic
    training error, status 500, which neither precondition failure has. *)
Theorem retrain_reports_fit_failure
    (sklearn : DataFrame → outcome fit_report) (BASE_DIR : string)
    (files : string → csv_state) (MODEL_PATH METADATA_PATH utcnow : string)
    (w : store) (df : DataFrame) (e : exn) :
  files (retrain_csv_path BASE_DIR) = CsvFrame df →
  (10 ≤ length (dropna_result df))%nat →
  sklearn (dropna_result df) = Raise e →
  train_from_csv sklearn BASE_DIR files (Some (retrain_csv_path BASE_DIR))
    MODEL_PATH METADATA_PATH w
  = (w, Raise e)
  ∧ (isinstance e ValueError = true →
     retrain sklearn BASE_DIR files MODEL_PATH METADATA_PATH utcnow w
     = (w, Raise (HTTPExc 400 (str e))))
  ∧ (isinstance e FileNotFoundError = true →
     retrain sklearn BASE_DIR files MODEL_PATH METADATA_PATH utcnow w
     = (w, Raise (HTTPExc 404
          "CSV file not found. Please ensure student_data_sample.csv exists in /data.")))
  ∧ (isinstance e Exception = true →
     isinstance e ValueError = false →
     isinstance e FileNotFoundError = false →
     retrain sklearn BASE_DIR files MODEL_PATH METADATA_PATH utcnow w
     = (w, Raise (HTTPExc 500 ("Training error: " +:+ str e)))).
Proof.
  intros Hfile Hlen Hfit.
  pose proof (train_from_csv_fit_raises sklearn BASE_DIR files _ MODEL_PATH
                METADATA_PATH w df e Hfile Hlen Hfit) as Htrain.
  split; [exact Htrain|].
  assert (retrain sklearn BASE_DIR files MODEL_PATH METADATA_PATH utcnow w
          = (w, handle e retrain_clauses)) as ->.
  { unfold retrain. fold (retrain_csv_path BASE_DIR). rewrite Htrain. reflexivity. }
  unfold retrain_clauses. split_and!.
  - intros Hval. simpl.
    by rewrite (value_error_is_not_file_not_found e Hval), Hval.
  - intros Hfnf. simpl. by rewrite Hfnf.
  - intros Hexc Hval Hfnf. simpl. by rewrite Hfnf, Hval, Hexc.
Qed.

Lemma retrain_reports_fit_failure_witness :
  train_from_csv (fit_two_classes sample_report) "/srv/backend"
    (sample_files one_class_rows) (Some (retrain_csv_path "/srv/backend"))
    sample_model_path sample_metadata_path empty_store
  = (empty_store, Raise (one_class_error 1))
  ∧ retrain (fit_two_classes sample_report) "/srv/backend" (sample_files one_class_rows)
      sample_model_path sample_metadata_path "2024-05-01T10:00:00" empty_store
    = (empty_store, Raise (HTTPExc 400 (str (one_class_error 1)))).
Proof.
  assert (10 ≤ length (dropna_result one_class_rows))%nat as Hlen by (vm_compute; lia).
  destruct (retrain_reports_fit_failure (fit_two_classes sample_report) "/srv/backend"
              (sample_files one_class_rows) sample_model_path sample_metadata_path
              "2024-05-01T10:00:00" empty_store one_class_rows (one_class_error 1)
              eq_refl Hlen eq_refl)
    as (Htrain & Hval & _ & _).
  split; [exact Htrain | exact (Hval eq_refl)].
Defined.

(** ** Prediction *)

(** The endpoint answers what the predictor returns, or raises. *)
Lemma predict_returns PRED_THRESHOLD w request r :
  predict PRED_THRESHOLD w request = Ret r →
  Predictor_predict PRED_THRESHOLD w
    (Request.attendance request) (Request.marks request)
    (Request.internal_score request) (Request.final_exam_score request) = Ret r.
Proof.
  unfold predict. destruct (Predictor_predict _ _ _ _ _ _) as [r'|e]; simpl.
  - congruence.
  - destruct (isinstance e InvalidInputError); [discriminate|].
    destruct (isinstance e FileNotFoundError); [discriminate|].
    destruct (isinstance e Exception); discriminate.
Qed.

(** Before any training there is no artifact, and the endpoint answers 503. *)
Example predict_before_training :
  predict None empty_store sample_request
  = Raise (HTTPExc 503
      "Model not trained yet. Please train the model first using /api/retrain").
Proof. reflexivity. Qed.

(** *** Batch prediction *)

Lemma complete_usable e :
  match complete e with
  | Some r => usable e ∧ input_ids r = enrollment_ids e
  | None => ¬ usable e
  end.
Proof.
  unfold complete, usable.
  destruct (Enrollment.attendance e), (Enrollment.marks e),
    (Enrollment.internal_score e); simpl;
    try (intros (H1 & H2 & H3); by (inversion H1 || inversion H2 || inversion H3)).
  repeat split; eauto.
Qed.

(** The records handed to the predictor are the usable enrollments, in
    their order, under their identifiers. *)
Lemma prediction_data_ids enrollments :
  map input_ids (prediction_data enrollments)
  = map enrollment_ids (filter usable enrollments).
Proof.
  unfold prediction_data.
  induction enrollments as [|e es IH]; [reflexivity|].
  rewrite filter_cons. pose proof (complete_usable e) as He.
  change (omap complete (e :: es))
    with (match complete e with
          | Some r => r :: omap complete es
          | None => omap complete es
          end).
  destruct (complete e) as [r|].
  - destruct He as [Hu Hid]. rewrite decide_True by done.
    rewrite !map_cons. by rewrite IH, Hid.
  - by rewrite decide_False.
Qed.

Lemma Predictor_predict_batch_ids PRED_THRESHOLD w records results :
  Predictor_predict_batch PRED_THRESHOLD w records = Ret results →
  map result_ids results = map input_ids records.
Proof.
  unfold Predictor_predict_batch.
  destruct (model_file w) as [art|]; [|discriminate].
  destruct (_resolve_threshold_with_source _ _) as [[t src]|]; [|discriminate].
  simpl. intros [= <-]. rewrite <- list_fmap_compose. reflexivity.
Qed.

(** C9. With a trained model and a threshold that resolves, the batch
    endpoint gives one result for each enrollment that has its three
    features and none for the others, in the order of the enrollments, each
    under the identifiers of its enrollment; it fails exactly when no
    enrollment has its three features. *)
Theorem predict_batch_usable_rows
    (PRED_THRESHOLD : option string) (w : store) (enrollments : list Enrollment.t)
    (art : artifact) (t : float) (src : string) :
  model_file w = Some art →
  _resolve_threshold_with_source PRED_THRESHOLD (metadata_file w) = Ret (t, src) →
  (filter usable enrollments = [] →
     ∃ e, predict_batch PRED_THRESHOLD w enrollments = Raise e)
  ∧ (filter usable enrollments ≠ [] →
     ∃ results,
       predict_batch PRED_THRESHOLD w enrollments = Ret (results, length results)
       ∧ map result_ids results = map enrollment_ids (filter usable enrollments)).
Proof.
  intros Hart Hres.
  pose proof (prediction_data_ids enrollments) as Hids.
  split; intros Hu.
  - rewrite Hu in Hids. apply fmap_nil_inv in Hids.
    unfold predict_batch. rewrite Hids. simpl. eauto.
  - assert (prediction_data enrollments ≠ []) as Hdata.
    { intros Hd. rewrite Hd in Hids. symmetry in Hids.
      by apply fmap_nil_inv in Hids. }
    destruct (Predictor_predict_batch PRED_THRESHOLD w (prediction_data enrollments))
      as [results|e] eqn:Hp.
    + exists results. split.
      * unfold predict_batch. rewrite bool_decide_eq_false_2 by done.
        rewrite Hp. reflexivity.
      * rewrite <- Hids. eauto using Predictor_predict_batch_ids.
    + exfalso. revert Hp. unfold Predictor_predict_batch.
      rewrite Hart, Hres. discriminate.
Qed.

Lemma predict_batch_usable_rows_witness :
  ∃ results,
    predict_batch None trained_store five_enrollments = Ret (results, length results)
    ∧ map result_ids results = [(1, 10); (3, 10); (5, 11)]%Z.
Proof.
  destruct (predict_batch_usable_rows None trained_store five_enrollments
              sample_artifact f_0_6 "metadata:recommended" eq_refl eq_refl)
    as [_ Hsome].
  destruct Hsome as (results & Hr & Hids); [discriminate|].
  exists results. split; [exact Hr | exact Hids].
Defined.

Example predict_batch_three_of_five :
  ∃ results, predict_batch None trained_store five_enrollments = Ret (results, 3%nat).
Proof. eexists. vm_compute. reflexivity. Qed.

(** With no usable enrollment the 400 error of line 192 is raised inside
    the [try] and leaves the endpoint as a 500 error. *)
Example predict_batch_no_usable_row :
  ∃ detail,
    predict_batch None trained_store [enrollment 2 10 None; enrollment 4 11 None]
    = Raise (HTTPExc 500 detail).
Proof. eexists. vm_compute. reflexivity. Qed.

(** * Further properties of the code *)

(** ** The resolver and the threshold endpoints *)

Lemma env_override_in_range PRED_THRESHOLD t :
  env_override PRED_THRESHOLD = Some t → strictly_between_0_and_1 t = true.
Proof.
  unfold env_override. destruct PRED_THRESHOLD as [s|]; [|discriminate].
  destruct (float_of_str s) as [t'|]; [|discriminate].
  destruct (strictly_between_0_and_1 t') eqn:Ht; congruence.
Qed.

Lemma accepted_in_range v t :
  accepted v = Some t → strictly_between_0_and_1 t = true.
Proof.
  destruct v as [ | |n|t'| | | ]; simpl; try discriminate.
  - destruct (float_of_int n) as [t'|]; [|discriminate].
    destruct (strictly_between_0_and_1 t') eqn:Ht; congruence.
  - destruct (strictly_between_0_and_1 t') eqn:Ht; congruence.
Qed.

Lemma persisted_threshold_in_range f key t :
  persisted_threshold f key = Some t → strictly_between_0_and_1 t = true.
Proof.
  unfold persisted_threshold. destruct f as [ | | | | | |[ | | | | | |d]]; try discriminate.
  destruct (d !! key) as [v|]; [|discriminate]. apply accepted_in_range.
Qed.

(** X1. Whatever [get_threshold] answers is a usable threshold: the value
    is strictly between 0.0 and 1.0, the source is one of the four labels,
    and the source is [default] only with the value 0.6. *)
Theorem get_threshold_in_range PRED_THRESHOLD f t src :
  get_threshold PRED_THRESHOLD f = Ret (t, src) →
  strictly_between_0_and_1 t = true
  ∧ known_source src
  ∧ (src = "default" → t = f_0_6).
Proof.
  unfold get_threshold.
  destruct (_resolve_threshold_with_source PRED_THRESHOLD f) as [[t' src']|] eqn:H;
    [|discriminate].
  simpl. intros [= -> ->].
  apply resolve_follows_chain in H. revert H. unfold priority_chain, known_source.
  destruct (env_override PRED_THRESHOLD) as [te|] eqn:He.
  { intros [= -> ->]. apply env_override_in_range in He. split_and!; auto. discriminate. }
  destruct (persisted_threshold f "user_threshold") as [tu|] eqn:Hu.
  { intros [= -> ->]. apply persisted_threshold_in_range in Hu. split_and!; auto.
    discriminate. }
  destruct (persisted_threshold f "recommended_threshold") as [tr|] eqn:Hr.
  { intros [= -> ->]. apply persisted_threshold_in_range in Hr. split_and!; auto.
    discriminate. }
  intros [= -> ->]. split_and!; [reflexivity | auto 6 | reflexivity].
Qed.

Lemma get_threshold_in_range_witness :
  strictly_between_0_and_1 f_0_75 = true
  ∧ known_source "env"
  ∧ ("env" = "default" → f_0_75 = f_0_6).
Proof.
  apply (get_threshold_in_range (Some "0.75") FileUndecodable).
  vm_compute. reflexivity.
Defined.

(** X2. When [PRED_THRESHOLD] parses to a float strictly between 0.0 and
    1.0, the resolver returns it without looking at the metadata file: the
    answer is the same on every state of the file, also on one that cannot
    be read, decoded or converted. *)
Theorem env_override_shadows_metadata (s : string) (t : float) (f : file_state) :
  float_of_str s = Ret t →
  strictly_between_0_and_1 t = true →
  _resolve_threshold_with_source (Some s) f = Ret (t, "env").
Proof.
  intros Hs Ht. apply resolve_env_wins. unfold env_override. by rewrite Hs, Ht.
Qed.

Lemma env_override_shadows_metadata_witness :
  _resolve_threshold_with_source (Some "0.75") huge_user_threshold = Ret (f_0_75, "env").
Proof.
  apply env_override_shadows_metadata; vm_compute; reflexivity.
Defined.

(** X3. Of two updates in a row the second decides: the file and the
    response are those of the second update alone, whether the first was
    accepted, rejected or failed. *)
Theorem update_threshold_twice METADATA_PATH v1 utcnow1 v2 utcnow2 f :
  strictly_between_0_and_1 v2 = true →
  update_threshold METADATA_PATH v2 utcnow2
    (update_threshold METADATA_PATH v1 utcnow1 f).1
  = update_threshold METADATA_PATH v2 utcnow2 f.
Proof.
  intros H2. unfold update_threshold at 2.
  destruct (negb (strictly_between_0_and_1 v1)); [reflexivity|].
  destruct (load_metadata_for_update f) as [m|e] eqn:Hload; [|reflexivity].
  destruct (os_makedirs (os_path_dirname METADATA_PATH)) as [[]|e] eqn:Hmk;
    [|reflexivity].
  simpl. unfold update_threshold.
  rewrite H2, Hload, Hmk. simpl.
  rewrite load_metadata_for_update_written
    by (by apply update_threshold_written_loadable,
                 (load_metadata_for_update_loadable f)).
  do 3 f_equal. apply map_eq. intros k.
  rewrite !lookup_insert. repeat case_decide; congruence.
Qed.

Lemma update_threshold_twice_witness :
  update_threshold sample_metadata_path f_0_8 "2024-05-02T09:00:00"
    (update_threshold sample_metadata_path f_0_4 "2024-05-01T10:00:00" FileNotJson).1
  = update_threshold sample_metadata_path f_0_8 "2024-05-02T09:00:00" FileNotJson.
Proof. apply update_threshold_twice. reflexivity. Defined.

(** X4. A metadata file that loads as JSON other than an object (a list,
    a number, a string, [null]) is replaced: on a metadata path with a
    directory part the update succeeds and writes the object with the two
    keys only. *)
Theorem update_threshold_replaces_non_object METADATA_PATH threshold utcnow v :
  strictly_between_0_and_1 threshold = true →
  os_path_dirname METADATA_PATH ≠ "" →
  open_and_load (FileJson v) = Ret v →
  (∀ d, v ≠ JDict d) →
  update_threshold METADATA_PATH threshold utcnow (FileJson v)
  = (FileJson (JDict {[ "user_threshold" := JFloat threshold;
                        "user_threshold_set_at" := JStr (utcnow +:+ "Z") ]}),
     Ret (threshold, "metadata")).
Proof.
  intros Ht Hdir Hload Hv. unfold update_threshold, load_metadata_for_update.
  change (path_exists (FileJson v)) with true. cbv iota.
  rewrite Ht, Hload, (os_makedirs_named _ Hdir). simpl.
  destruct v as [ | | | | | |d]; try (by exfalso; eapply Hv);
    (simpl; do 3 f_equal; apply map_eq; intros k;
     rewrite !lookup_insert, lookup_empty; repeat case_decide; congruence).
Qed.

Lemma update_threshold_replaces_non_object_witness :
  update_threshold sample_metadata_path f_0_4 "2024-05-01T10:00:00"
    (FileJson (JList [JInt 1; JInt 2]))
  = (FileJson (JDict {[ "user_threshold" := JFloat f_0_4;
                        "user_threshold_set_at" := JStr "2024-05-01T10:00:00Z" ]}),
     Ret (f_0_4, "metadata")).
Proof.
  apply (update_threshold_replaces_non_object sample_metadata_path f_0_4
           "2024-05-01T10:00:00").
  - reflexivity.
  - vm_compute. discriminate.
  - reflexivity.
  - intros d. discriminate.
Defined.

(** X17. With a metadata path that has no directory part (a bare file
    name in [MODEL_METADATA_PATH]) no threshold is ever persisted: whatever
    the value and the metadata file, the update raises and leaves the file
    as it was; for a value in range and a file that is absent or loads, the
    exception is the [FileNotFoundError] of [os.makedirs]. *)
Theorem update_threshold_bare_path_never_writes METADATA_PATH threshold utcnow f :
  os_path_dirname METADATA_PATH = "" →
  (∃ e, update_threshold METADATA_PATH threshold utcnow f = (f, Raise e))
  ∧ (strictly_between_0_and_1 threshold = true →
     (f = FileAbsent ∨ ∃ v, open_and_load f = Ret v) →
     update_threshold METADATA_PATH threshold utcnow f = (f, Raise no_directory_error)).
Proof.
  intros Hdir. unfold update_threshold. rewrite Hdir. split.
  - destruct (negb (strictly_between_0_and_1 threshold)); [eauto|].
    destruct (load_metadata_for_update f); simpl; eauto.
  - intros -> Hf. simpl.
    assert (∃ metadata, load_metadata_for_update f = Ret metadata) as [metadata ->];
      [|reflexivity].
    destruct Hf as [->|[v Hv]]; [by eexists|].
    unfold load_metadata_for_update. rewrite Hv.
    destruct (path_exists f); [|by eexists].
    destruct v; by eexists.
Qed.

Lemma update_threshold_bare_path_never_writes_witness :
  (∃ e, update_threshold "metadata.json" f_0_4 "2024-05-01T10:00:00"
          (FileJson (JDict {[ "recommended_threshold" := JFloat f_0_6 ]}))
        = (FileJson (JDict {[ "recommended_threshold" := JFloat f_0_6 ]}), Raise e))
  ∧ (strictly_between_0_and_1 f_0_4 = true →
     (FileJson (JDict {[ "recommended_threshold" := JFloat f_0_6 ]}) = FileAbsent
      ∨ ∃ v, open_and_load (FileJson (JDict {[ "recommended_threshold" := JFloat f_0_6 ]}))
             = Ret v) →
     update_threshold "metadata.json" f_0_4 "2024-05-01T10:00:00"
       (FileJson (JDict {[ "recommended_threshold" := JFloat f_0_6 ]}))
     = (FileJson (JDict {[ "recommended_threshold" := JFloat f_0_6 ]}),
        Raise no_directory_error)).
Proof.
  apply (update_threshold_bare_path_never_writes "metadata.json").
  vm_compute. reflexivity.
Defined.

(** ** The admin token *)

(** Past the characters of an occurrence the scan goes on as from the
    start. *)
Lemma replace_from_skip old new (u s : string) :
  replace_from old new (String.length u) (u +:+ s) = replace_from old new 0 s.
Proof. induction u as [|c u IH]; [reflexivity | exact IH]. Qed.

Lemma prefix_append (u s : string) : String.prefix u (u +:+ s) = true.
Proof.
  apply prefix_correct. induction u as [|c u IH]; simpl.
  - by destruct s.
  - by rewrite IH.
Qed.

(** An occurrence at the start is replaced, and the scan goes on behind it. *)
Lemma str_replace_at_start c old new s :
  str_replace (String c old) new (String c old +:+ s)
  = new +:+ str_replace (String c old) new s.
Proof.
  unfold str_replace.
  change (String c old +:+ s) with (String c (old +:+ s)).
  cbn [replace_from].
  change (String c (old +:+ s)) with (String c old +:+ s).
  rewrite prefix_append. f_equal.
  change (String.length (String c old) - 1) with (String.length old - 0).
  rewrite Nat.sub_0_r. apply replace_from_skip.
Qed.

(** X5. [verify_admin_token] has three outcomes: it accepts a header that
    is not empty and is the token once every "Bearer " is taken out of it;
    it rejects a missing or empty header, and every other header, with
    status 401.  A wrong token is reported as a header of invalid format:
    the detail "Invalid admin token" is never what the caller gets. *)
Theorem verify_admin_token_outcomes ADMIN_TOKEN authorization :
  (verify_admin_token ADMIN_TOKEN authorization = Ret tt
   ∧ ∃ a, authorization = Some a ∧ a ≠ ""
          ∧ str_replace "Bearer " "" a = ADMIN_TOKEN)
  ∨ (verify_admin_token ADMIN_TOKEN authorization
     = Raise (HTTPExc 401 "Authorization header missing")
     ∧ (authorization = None ∨ authorization = Some ""))
  ∨ (verify_admin_token ADMIN_TOKEN authorization
     = Raise (HTTPExc 401 "Invalid authorization header format")
     ∧ ∃ a, authorization = Some a ∧ a ≠ ""
            ∧ str_replace "Bearer " "" a ≠ ADMIN_TOKEN).
Proof.
  unfold verify_admin_token. destruct authorization as [a|]; [|auto].
  destruct (String.eqb_spec a "") as [->|Ha]; [auto|].
  destruct (String.eqb_spec (str_replace "Bearer " "" a) ADMIN_TOKEN) as [Heq|Hne]; simpl.
  - left. eauto.
  - right. right. eauto.
Qed.

(** X6. The header "Bearer " followed by the token is accepted exactly
    when the token holds no "Bearer " itself; and the token alone, without
    the scheme, is accepted whenever that header is and the token is not
    empty. *)
Theorem verify_admin_token_bearer ADMIN_TOKEN :
  (verify_admin_token ADMIN_TOKEN (Some ("Bearer " +:+ ADMIN_TOKEN)) = Ret tt
   ↔ str_replace "Bearer " "" ADMIN_TOKEN = ADMIN_TOKEN)
  ∧ (ADMIN_TOKEN ≠ "" →
     verify_admin_token ADMIN_TOKEN (Some ("Bearer " +:+ ADMIN_TOKEN)) = Ret tt →
     verify_admin_token ADMIN_TOKEN (Some ADMIN_TOKEN) = Ret tt).
Proof.
  assert (verify_admin_token ADMIN_TOKEN (Some ("Bearer " +:+ ADMIN_TOKEN)) = Ret tt
          ↔ str_replace "Bearer " "" ADMIN_TOKEN = ADMIN_TOKEN) as Hiff.
  { unfold verify_admin_token.
    change (("Bearer " +:+ ADMIN_TOKEN =? "")%string) with false. cbv iota.
    rewrite (str_replace_at_start "B" "earer " "" ADMIN_TOKEN).
    change ("" +:+ ?x) with x.
    destruct (String.eqb_spec (str_replace "Bearer " "" ADMIN_TOKEN) ADMIN_TOKEN);
      simpl; split; congruence. }
  split; [exact Hiff|].
  intros Hne Hacc. apply Hiff in Hacc.
  unfold verify_admin_token.
  destruct (String.eqb_spec ADMIN_TOKEN "") as [|_]; [done|].
  rewrite Hacc, String.eqb_refl. reflexivity.
Qed.

Lemma verify_admin_token_bearer_witness :
  verify_admin_token "changeme" (Some "changeme") = Ret tt.
Proof.
  apply (verify_admin_token_bearer "changeme"); [discriminate | reflexivity].
Defined.

(** A token that holds "Bearer " cannot be presented in the usual way. *)
Example verify_admin_token_bearer_in_token :
  verify_admin_token "my Bearer token" (Some "Bearer my Bearer token")
  = Raise (HTTPExc 401 "Invalid authorization header format").
Proof. vm_compute. reflexivity. Qed.

(** ** Pagination *)

(** X7. With a positive [limit], [get_students] answers the students of
    the query, and [pages] is the least number of pages of [limit] rows
    that hold [total] rows: [pages * limit >= total > (pages - 1) * limit].
    With no student at all that is 0 pages. *)
Theorem get_students_pages {A : Type} (crud_get_students : Z → Z → outcome (list A * Z))
    (page limit : Z) (students : list A) (total : Z) :
  (0 < limit)%Z →
  crud_get_students ((page - 1) * limit)%Z limit = Ret (students, total) →
  ∃ r, get_students crud_get_students page limit = Ret r
       ∧ Students.items r = students
       ∧ Students.total r = total
       ∧ (total ≤ Students.pages r * limit)%Z
       ∧ ((Students.pages r - 1) * limit < total)%Z.
Proof.
  intros Hl Hq. unfold get_students. rewrite Hq. simpl. unfold floordiv.
  destruct (Z.eqb_spec limit 0) as [|_]; [lia|]. simpl.
  eexists. split; [reflexivity|]. simpl. split_and!; try reflexivity.
  - pose proof (Z.mul_succ_div_gt (total + limit - 1) limit Hl). lia.
  - pose proof (Z.mul_div_le (total + limit - 1) limit Hl). lia.
Qed.

Lemma get_students_pages_witness :
  ∃ r, get_students sample_students 3 10 = Ret r
       ∧ Students.items r = [20; 21; 22; 23; 24; 25; 26; 27; 28; 29]%Z
       ∧ Students.total r = 25%Z
       ∧ (25 ≤ Students.pages r * 10)%Z
       ∧ ((Students.pages r - 1) * 10 < 25)%Z.
Proof.
  apply (get_students_pages sample_students 3 10); [lia | reflexivity].
Defined.

(** X8. With [limit = 0] the query is made, and then the division
    raises: the endpoint has no answer, for any page and any table. *)
Theorem get_students_limit_zero {A : Type}
    (crud_get_students : Z → Z → outcome (list A * Z)) (page : Z) (answer : list A * Z) :
  crud_get_students 0%Z 0%Z = Ret answer →
  get_students crud_get_students page 0
  = Raise (Exn ArithmeticError "integer division or modulo by zero").
Proof.
  intros Hq. unfold get_students. rewrite Z.mul_0_r, Hq.
  destruct answer as [students total]. reflexivity.
Qed.

Lemma get_students_limit_zero_witness :
  get_students sample_students 1 0
  = Raise (Exn ArithmeticError "integer division or modulo by zero").
Proof. apply (get_students_limit_zero sample_students 1 ([], 25%Z)). reflexivity. Defined.

(** ** Export *)

(** X9. The export succeeds exactly when there is training data; the file
    then holds the header and one row for each enrollment, in their order,
    every row with as many cells as the header.  With no training data the
    400 error of line 335 does not reach the caller: the export fails with
    status 500, and leaves the file as it was. *)
Theorem export_data_rows BASE_DIR (enrollments : list TrainingData.t) exported :
  match export_data BASE_DIR (Ret enrollments) exported with
  | (file, Ret response) =>
      enrollments ≠ []
      ∧ response.1.1 = export_csv_path BASE_DIR
      ∧ ∃ rows, file = Some (export_header :: rows)
                ∧ rows = map export_row enrollments
                ∧ length rows = length enrollments
                ∧ Forall (λ row, length row = length export_header) rows
  | (file, Raise e) =>
      enrollments = [] ∧ file = exported ∧ ∃ detail, e = HTTPExc 500 detail
  end.
Proof.
  unfold export_data. case_bool_decide as He; simpl; [eauto|].
  split_and!; [done | reflexivity |].
  eexists. split_and!; [reflexivity | reflexivity | apply length_map |].
  apply Forall_forall. intros row Hrow.
  apply list_elem_of_In, in_map_iff in Hrow as (e & <- & _). reflexivity.
Qed.

(** Whatever the query raises, the export fails with status 500 and leaves
    the file as it was. *)
Lemma export_data_query_fails BASE_DIR e exported :
  isinstance e Exception = true →
  export_data BASE_DIR (Raise e) exported
  = (exported, Raise (HTTPExc 500 ("Export error: " +:+ str e))).
Proof. intros He. unfold export_data. simpl. by rewrite He. Qed.

Lemma append_inj_r (p a b : string) : p +:+ a = p +:+ b → a = b.
Proof. induction p as [|c p IH]; simpl; [done|]. intros [= H]. auto. Qed.

Lemma path_join_inj (a b c : string) : path_join a b = path_join a c → b = c.
Proof.
  unfold path_join. destruct (String.eqb a ""); [done|].
  destruct (String.eqb _ "/").
  - apply append_inj_r.
  - intros H. apply append_inj_r in H. by apply (append_inj_r "/") in H.
Qed.

(** X10. The export does not feed the training: the file it writes is not
    the file [retrain] reads, whatever the directory of the backend, so
    [retrain] does the same whatever is put at the export path. *)
Theorem retrain_ignores_export
    (sklearn : DataFrame → outcome fit_report) (BASE_DIR : string)
    (files : string → csv_state) (MODEL_PATH METADATA_PATH utcnow : string)
    (w : store) (content : csv_state) :
  export_csv_path BASE_DIR ≠ retrain_csv_path BASE_DIR
  ∧ retrain sklearn BASE_DIR (with_file files (export_csv_path BASE_DIR) content)
      MODEL_PATH METADATA_PATH utcnow w
    = retrain sklearn BASE_DIR files MODEL_PATH METADATA_PATH utcnow w.
Proof.
  assert (export_csv_path BASE_DIR ≠ retrain_csv_path BASE_DIR) as Hne.
  { unfold export_csv_path, retrain_csv_path. intros H.
    apply path_join_inj in H. discriminate. }
  split; [exact Hne|].
  unfold retrain, train_from_csv, with_file. fold (retrain_csv_path BASE_DIR).
  destruct (String.eqb_spec (retrain_csv_path BASE_DIR) (export_csv_path BASE_DIR));
    [congruence | reflexivity].
Qed.

(** ** The outcomes of [retrain] *)

(** The three clauses turn every [Exception] into an [HTTPException] of
    status 404, 400 or 500. *)
Lemma retrain_clauses_http {A} (e : exn) :
  isinstance e Exception = true →
  ∃ status detail,
    handle (A := A) e retrain_clauses = Raise (HTTPExc status detail)
    ∧ (status = 404 ∨ status = 400 ∨ status = 500)%nat.
Proof.
  intros He. unfold retrain_clauses. simpl.
  destruct (isinstance e FileNotFoundError); [eauto 6|].
  destruct (isinstance e ValueError); [eauto 6|].
  rewrite He. eauto 6.
Qed.

(** [json.dump] of the metadata of a run raises nothing but the
    [TypeError]. *)
Lemma json_dump_metadata_outcome rep df e :
  json_dump (metadata_dict rep df) = Raise e → e = int64_type_error.
Proof.
  unfold metadata_dict.
  destruct (value_counts (labels df)) as [|[k c] rest]; simpl; [discriminate|].
  intros [= <-]. reflexivity.
Qed.

(** X11. When the fit and the reading of the data set raise nothing but
    instances of [Exception], no other exception than an [HTTPException]
    of status 404, 400 or 500 leaves [retrain]. *)
Theorem retrain_raises_http_only
    (sklearn : DataFrame → outcome fit_report) (BASE_DIR : string)
    (files : string → csv_state) (MODEL_PATH METADATA_PATH utcnow : string)
    (w : store) (w' : store) (e : exn) :
  (∀ df e0, sklearn df = Raise e0 → isinstance e0 Exception = true) →
  (∀ e0, files (retrain_csv_path BASE_DIR) = CsvUnloadable e0 →
         isinstance e0 Exception = true) →
  retrain sklearn BASE_DIR files MODEL_PATH METADATA_PATH utcnow w = (w', Raise e) →
  ∃ status detail,
    e = HTTPExc status detail ∧ (status = 404 ∨ status = 400 ∨ status = 500)%nat.
Proof.
  intros Hfit Hread. unfold retrain.
  destruct (train_from_csv sklearn BASE_DIR files _ MODEL_PATH METADATA_PATH w)
    as [w0 r] eqn:Htrain.
  intros [= _ Hr]. destruct r as [[[m metrics] metadata]|e0]; [discriminate|].
  change (handle (A := pyobj) e0 retrain_clauses = Raise e) in Hr.
  assert (isinstance e0 Exception = true) as He0.
  { revert Htrain. unfold train_from_csv. fold (retrain_csv_path BASE_DIR).
    destruct (files (retrain_csv_path BASE_DIR)) as [ |e1|df] eqn:Hfile.
    - intros [= _ <-]. reflexivity.
    - intros [= _ <-]. by apply Hread.
    - destruct (_ <? _)%nat; [intros [= _ <-]; reflexivity|].
      unfold train_model.
      destruct (sklearn (dropna_result df)) as [rep|e1] eqn:Hsk.
      + destruct (os_makedirs (os_path_dirname MODEL_PATH)) as [[]|e1] eqn:Hmk.
        * destruct (json_dump (metadata_dict rep (dropna_result df)))
            as [doc|e1] eqn:Hd; [discriminate|].
          apply json_dump_metadata_outcome in Hd as ->. intros [= _ <-]. reflexivity.
        * apply os_makedirs_raises in Hmk as [_ ->]. intros [= _ <-]. reflexivity.
      + intros [= _ <-]. eauto. }
  destruct (retrain_clauses_http (A := pyobj) e0 He0) as (status & detail & Hh & Hs).
  rewrite Hh in Hr. injection Hr as <-. eauto.
Qed.

Lemma retrain_raises_http_only_witness :
  ∃ status detail,
    HTTPExc 400 "Insufficient data for training. Need at least 10 samples, got 5"
    = HTTPExc status detail
    ∧ (status = 404 ∨ status = 400 ∨ status = 500)%nat.
Proof.
  apply (retrain_raises_http_only (λ _, Ret sample_report) "/srv/backend"
           (sample_files five_rows) sample_model_path sample_metadata_path
           "2024-05-01T10:00:00" empty_store empty_store).
  - intros df e0. discriminate.
  - intros e0. discriminate.
  - vm_compute. reflexivity.
Defined.

(** ** Batch prediction without a usable row *)

(** X12. With a trained model in place and no enrollment that has its
    three features, the 400 error of line 192 does not reach the caller:
    the batch endpoint fails with status 500. *)
Theorem predict_batch_no_data_is_500
    (PRED_THRESHOLD : option string) (w : store) (enrollments : list Enrollment.t)
    (art : artifact) :
  model_file w = Some art →
  filter usable enrollments = [] →
  ∃ detail, predict_batch PRED_THRESHOLD w enrollments = Raise (HTTPExc 500 detail).
Proof.
  intros _ Hu. pose proof (prediction_data_ids enrollments) as Hids.
  rewrite Hu in Hids. apply fmap_nil_inv in Hids.
  unfold predict_batch. rewrite Hids. eexists. reflexivity.
Qed.

Lemma predict_batch_no_data_is_500_witness :
  ∃ detail,
    predict_batch None trained_store [enrollment 2 10 None; enrollment 4 11 None]
    = Raise (HTTPExc 500 detail).
Proof.
  apply (predict_batch_no_data_is_500 None trained_store _ sample_artifact);
    reflexivity.
Defined.

(** ** The class counts *)

Lemma total_count_insert x l :
  total_count (insert_by_count x l) = (x.2 + total_count l)%nat.
Proof.
  induction l as [|y l IH]; [reflexivity|]. simpl.
  destruct (_ <? _)%nat; simpl; [rewrite IH|]; lia.
Qed.

Lemma total_count_sorted (l : list (Z * nat)) :
  total_count (foldr insert_by_count [] l) = total_count l.
Proof.
  induction l as [|x l IH]; [reflexivity|].
  simpl. rewrite total_count_insert, IH. reflexivity.
Qed.

(** The distinct values are the values, each once. *)
Lemma elem_of_unique x l : x ∈ unique l ↔ x ∈ l.
Proof.
  induction l as [|a l IH]; [reflexivity|]. simpl.
  rewrite !elem_of_cons, list_elem_of_filter, IH.
  destruct (decide (x = a)); naive_solver.
Qed.

Lemma NoDup_unique l : NoDup (unique l).
Proof.
  induction l as [|a l IH]; simpl; constructor.
  - rewrite list_elem_of_filter. naive_solver.
  - by apply NoDup_filter.
Qed.

(** Over keys without repetition, a value is counted once. *)
Lemma sum_indicator (a : Z) (ks : list Z) :
  NoDup ks → a ∈ ks →
  foldr (λ k acc, (if Z.eq_dec a k then 1 else 0) + acc)%nat 0%nat ks = 1%nat.
Proof.
  induction 1 as [|k ks Hk _ IH]; intros Ha; [by apply elem_of_nil in Ha|].
  simpl. apply elem_of_cons in Ha as [->|Ha].
  - destruct (Z.eq_dec k k); [|done].
    assert (foldr (λ k0 acc, (if Z.eq_dec k k0 then 1 else 0) + acc)%nat 0%nat ks = 0%nat)
      as ->; [|reflexivity].
    clear IH. induction ks as [|k' ks IH']; [reflexivity|]. simpl.
    destruct (Z.eq_dec k k') as [->|_].
    + exfalso. apply Hk. left.
    + apply IH'. intros H. apply Hk. by right.
  - destruct (Z.eq_dec a k) as [->|_]; [done|]. by apply IH.
Qed.

Lemma sum_count_occ (l ks : list Z) :
  NoDup ks → (∀ x, x ∈ l → x ∈ ks) →
  foldr (λ k acc, count_occ Z.eq_dec l k + acc)%nat 0%nat ks = length l.
Proof.
  intros Hnd. induction l as [|a l IH]; intros Hin.
  - clear. induction ks as [|k ks IHk]; [reflexivity | exact IHk].
  - assert (∀ ks' : list Z,
              foldr (λ k acc, count_occ Z.eq_dec (a :: l) k + acc)%nat 0%nat ks'
              = (foldr (λ k acc, (if Z.eq_dec a k then 1 else 0) + acc)%nat 0%nat ks'
                 + foldr (λ k acc, count_occ Z.eq_dec l k + acc)%nat 0%nat ks')%nat)
      as Hsplit.
    { induction ks' as [|k ks' IHk]; [reflexivity|]. cbn [foldr]. rewrite IHk.
      simpl. destruct (Z.eq_dec a k); lia. }
    rewrite Hsplit, (sum_indicator a ks Hnd), IH.
    + reflexivity.
    + intros x Hx. apply Hin. by right.
    + apply Hin. left.
Qed.

(** X13. The class counts of a frame add up to the number of its labels,
    and they name each class once; for the frame [train_from_csv] passes
    on, where the rows without label are gone, they add up to
    [samples_used]. *)
Theorem class_counts_total (df : DataFrame) :
  total_count (value_counts (labels (dropna_result df))) = length (dropna_result df)
  ∧ ∀ l : list Z,
      total_count (value_counts l) = length l
      ∧ (∀ k, k ∈ l ↔ ∃ c, (k, c) ∈ value_counts l)
      ∧ (∀ k c, (k, c) ∈ value_counts l → c = count_occ Z.eq_dec l k ∧ (0 < c)%nat).
Proof.
  assert (∀ l : list Z, total_count (value_counts l) = length l) as Htotal.
  { intros l. unfold value_counts. rewrite total_count_sorted.
    rewrite <- (sum_count_occ l (unique l)).
    - generalize (unique l). intros ks.
      induction ks as [|k ks IH]; [reflexivity|]. simpl. by rewrite IH.
    - apply NoDup_unique.
    - intros x Hx. by apply elem_of_unique. }
  split; [by rewrite Htotal, labels_dropna_length|].
  intros l. split; [apply Htotal|].
  assert (∀ kc, kc ∈ value_counts l
                ↔ kc ∈ map (λ x, (x, count_occ Z.eq_dec l x)) (unique l)) as Hmem.
  { intros kc. unfold value_counts.
    generalize (map (λ x, (x, count_occ Z.eq_dec l x)) (unique l)). intros l0.
    induction l0 as [|y l0 IH]; [reflexivity|]. simpl.
    rewrite elem_of_cons, <- IH. clear IH.
    generalize (foldr insert_by_count [] l0). intros s.
    induction s as [|z s IHs]; simpl.
    - set_solver.
    - destruct (_ <? _)%nat; rewrite !elem_of_cons; [rewrite IHs|]; set_solver. }
  assert (∀ k c, (k, c) ∈ value_counts l
                 ↔ c = count_occ Z.eq_dec l k ∧ k ∈ l) as Hpair.
  { intros k c. rewrite Hmem, list_elem_of_In, in_map_iff. split.
    - intros (x & [= <- <-] & Hx).
      split; [reflexivity|]. by apply elem_of_unique, list_elem_of_In.
    - intros [-> Hk]. exists k. split; [reflexivity|].
      by apply list_elem_of_In, elem_of_unique. }
  split.
  - intros k. split.
    + intros Hk. exists (count_occ Z.eq_dec l k). by apply Hpair.
    + intros [c Hc]. by apply Hpair in Hc as [_ Hk].
  - intros k c Hc. apply Hpair in Hc as [-> Hk]. split; [reflexivity|].
    by apply count_occ_In, list_elem_of_In.
Qed.

(** ** Integers as persisted thresholds *)

(** The conversion [float(n)] of an [int], on IEEE-754 binary64: the
    lemmas below follow the rounding of [binary_normalize] far enough to
    see that an integer which is not 0 converts to a double of absolute
    value at least 1, or overflows. *)

Section FloatOfInt.
Local Open Scope Z_scope.

Lemma digits2_pos_log2 (p : positive) :
  Zpos (digits2_pos p) = Z.log2 (Zpos p) + 1.
Proof.
  induction p as [p IH|p IH|]; [| |reflexivity].
  - change (digits2_pos p~1) with (Pos.succ (digits2_pos p)).
    rewrite Pos2Z.inj_succ, IH.
    rewrite (Pos2Z.inj_xI p), Z.log2_succ_double by lia. lia.
  - change (digits2_pos p~0) with (Pos.succ (digits2_pos p)).
    rewrite Pos2Z.inj_succ, IH.
    rewrite (Pos2Z.inj_xO p), Z.log2_double by lia. lia.
Qed.

Lemma Zdigits2_log2 (m : Z) : 0 < m → Zdigits2 m = Z.log2 m + 1.
Proof. destruct m as [|p|p]; try lia. intros _. apply digits2_pos_log2. Qed.

Lemma shr_m_shr_1 (mrs : shr_record) :
  0 ≤ shr_m mrs → shr_m (shr_1 mrs) = shr_m mrs / 2.
Proof.
  destruct mrs as [m r s]. simpl. intros Hm.
  destruct m as [|q|q]; [reflexivity| |lia].
  destruct q as [q|q|]; simpl; [| |reflexivity].
  - rewrite (Pos2Z.inj_xI q). apply Z.div_unique with 1; lia.
  - rewrite (Pos2Z.inj_xO q). apply Z.div_unique with 0; lia.
Qed.

Lemma shr_m_iter_pos (p : positive) (mrs : shr_record) :
  0 ≤ shr_m mrs →
  shr_m (SpecFloat.iter_pos shr_1 p mrs) = shr_m mrs / 2 ^ Zpos p.
Proof.
  revert mrs. induction p as [p IH|p IH|]; intros mrs Hm;
    try (assert (0 < 2 ^ Z.pos p) as Hpow by (apply Z.pow_pos_nonneg; lia)).
  - change (SpecFloat.iter_pos shr_1 p~1 mrs) with (SpecFloat.iter_pos shr_1 p (SpecFloat.iter_pos shr_1 p (shr_1 mrs))).
    assert (0 ≤ shr_m (shr_1 mrs)) as H1.
    { rewrite shr_m_shr_1 by done. apply Z.div_pos; lia. }
    rewrite IH; [rewrite IH by done|].
    + rewrite shr_m_shr_1 by done.
      rewrite !Z.div_div by lia.
      f_equal. rewrite (Pos2Z.inj_xI p).
      replace (2 * Z.pos p + 1) with (Z.pos p + Z.pos p + 1) by lia.
      rewrite !Z.pow_add_r by lia. change (2 ^ 1) with 2. ring.
    + rewrite IH by done. apply Z.div_pos; [done | lia].
  - change (SpecFloat.iter_pos shr_1 p~0 mrs) with (SpecFloat.iter_pos shr_1 p (SpecFloat.iter_pos shr_1 p mrs)).
    rewrite IH; [rewrite IH by done|].
    + rewrite !Z.div_div by lia.
      f_equal. rewrite (Pos2Z.inj_xO p).
      replace (2 * Z.pos p) with (Z.pos p + Z.pos p) by lia.
      rewrite !Z.pow_add_r by lia. ring.
    + rewrite IH by done. apply Z.div_pos; [done | lia].
  - cbn [SpecFloat.iter_pos]. rewrite shr_m_shr_1 by done. reflexivity.
Qed.

Lemma shr_fexp_digits (m e : Z) (l : location) :
  0 < m → 1 ≤ Zdigits2 m + e →
  0 < shr_m (shr_fexp prec emax m e l).1
  ∧ Zdigits2 (shr_m (shr_fexp prec emax m e l).1) + (shr_fexp prec emax m e l).2
    = Zdigits2 m + e
  ∧ Zdigits2 (shr_m (shr_fexp prec emax m e l).1) ≤ 53.
Proof.
  intros Hm HD. unfold shr_fexp, shr, fexp, emin, prec, emax.
  rewrite Z.max_l by lia.
  assert (shr_m (shr_record_of_loc m l) = m) as Hrec by (by destruct l as [|[]]).
  pose proof (Zdigits2_log2 m Hm) as Hdig.
  destruct (Zdigits2 m + e - 53 - e) as [|p|p] eqn:Hn; simpl; rewrite ?Hrec.
  - split_and!; lia.
  - rewrite shr_m_iter_pos by (rewrite Hrec; lia). rewrite Hrec.
    pose proof (Z.log2_nonneg m) as Hlog.
    assert (0 < m / 2 ^ Z.pos p) as Hq.
    { apply Z.div_str_pos. split; [apply Z.pow_pos_nonneg; lia|].
      transitivity (2 ^ Z.log2 m); [apply Z.pow_le_mono_r; lia|].
      by apply Z.log2_spec. }
    split; [exact Hq|].
    rewrite (Zdigits2_log2 _ Hq), <- Z.shiftr_div_pow2, Z.log2_shiftr by lia.
    lia.
  - split_and!; lia.
Qed.

Lemma round_nearest_even_bounds (m : Z) (l : location) :
  m ≤ round_nearest_even m l ≤ m + 1.
Proof.
  unfold round_nearest_even. destruct l as [|[]]; try lia.
  destruct (Z.even m); lia.
Qed.

(** A value of at least 1 rounds to a double of at least 1. *)
Lemma binary_round_aux_ge_1 (sx : bool) (m e : Z) :
  0 < m → 1 ≤ Zdigits2 m + e →
  match binary_round_aux prec emax sx m e loc_Exact with
  | S754_finite s m' e' => s = sx ∧ (-52 < e' ∨ (e' = -52 ∧ 2 ^ 52 ≤ Z.pos m'))
  | S754_infinity s => s = sx
  | _ => False
  end.
Proof.
  intros Hm HD. unfold binary_round_aux.
  pose proof (shr_fexp_digits m e loc_Exact Hm HD) as (H1 & H2 & _).
  destruct (shr_fexp prec emax m e loc_Exact) as [mrs' e'] eqn:Hs1. simpl in H1, H2.
  pose proof (round_nearest_even_bounds (shr_m mrs') (loc_of_shr_record mrs')) as Hr.
  set (m2 := round_nearest_even (shr_m mrs') (loc_of_shr_record mrs')) in *.
  assert (0 < m2) as Hm2 by lia.
  assert (1 ≤ Zdigits2 m2 + e') as HD2.
  { rewrite (Zdigits2_log2 m2 Hm2). rewrite (Zdigits2_log2 _ H1) in H2.
    pose proof (Z.log2_le_mono (shr_m mrs') m2). lia. }
  pose proof (shr_fexp_digits m2 e' loc_Exact Hm2 HD2) as (H3 & H4 & H5).
  destruct (shr_fexp prec emax m2 e' loc_Exact) as [mrs'' e''] eqn:Hs2.
  simpl in H3, H4, H5.
  destruct (shr_m mrs'') as [|m''|m''] eqn:Hm''; try lia.
  destruct (e'' <=? emax - prec); [|reflexivity].
  split; [reflexivity|].
  destruct (Z.eq_dec e'' (-52)) as [->|Hne]; [right|left; lia].
  split; [reflexivity|].
  rewrite (Zdigits2_log2 (Z.pos m'')) in H4, H5 by lia.
  assert (Z.log2 (Z.pos m'') = 52) as Hlog by lia.
  rewrite <- Hlog. apply Z.log2_spec. lia.
Qed.

Lemma iter_xO_pow2 (p d : positive) : Z.pos (Pos.iter xO p d) = Z.pos p * 2 ^ Z.pos d.
Proof.
  induction d as [|d IH] using Pos.peano_ind.
  - simpl. rewrite (Pos2Z.inj_xO p). lia.
  - rewrite Pos.iter_succ, (Pos2Z.inj_xO _), IH, Pos2Z.inj_succ, Z.pow_succ_r by lia. ring.
Qed.

(** [float(n)] of an integer that is not 0 is, in absolute value, at least
    1, or an infinity. *)
Lemma binary_round_int (sx : bool) (p : positive) :
  match binary_round prec emax sx p 0 with
  | S754_finite s m' e' => s = sx ∧ (-52 < e' ∨ (e' = -52 ∧ 2 ^ 52 ≤ Z.pos m'))
  | S754_infinity s => s = sx
  | _ => False
  end.
Proof.
  unfold binary_round.
  destruct (shl_align p 0 (fexp prec emax (Z.pos (digits2_pos p) + 0))) as [mz ez] eqn:Hsh.
  apply binary_round_aux_ge_1; [lia|].
  revert Hsh. unfold shl_align.
  pose proof (Z.log2_nonneg (Z.pos p)).
  destruct (fexp prec emax (Z.pos (digits2_pos p) + 0) - 0) as [|d|d] eqn:Hd;
    intros [= <- <-]; rewrite ?digits2_pos_log2.
  - simpl. rewrite digits2_pos_log2. lia.
  - simpl. rewrite digits2_pos_log2. lia.
  - simpl Zdigits2. rewrite digits2_pos_log2, iter_xO_pow2, Z.log2_mul_pow2 by lia.
    revert Hd. unfold fexp, emin, prec, emax. rewrite digits2_pos_log2. lia.
Qed.


(** A positive double of exponent above -52, or of exponent -52 and
    mantissa at least 2^52, is not below 1.0. *)
Lemma SFltb_one (m : positive) (e : Z) :
  -52 < e ∨ (e = -52 ∧ 4503599627370496 ≤ Z.pos m) →
  SFltb (S754_finite false m e) f_1_0 = false.
Proof.
  intros He. unfold SFltb, SFcompare, f_1_0.
  destruct (Z.compare_spec e (-52)) as [->|Hlt|Hgt]; [|exfalso; lia|reflexivity].
  destruct (Pos.compare_cont Eq m 4503599627370496) eqn:Hc; try reflexivity.
  exfalso. destruct He as [He|[_ He]]; [lia|].
  assert ((m ?= 4503599627370496)%positive = Lt) as Hc' by exact Hc.
  rewrite Pos.compare_lt_iff in Hc'. apply Pos2Z.pos_lt_pos in Hc'.
  exact (proj1 (Z.lt_nge _ _) Hc' He).
Qed.

(** The float of an [int] is never strictly between 0.0 and 1.0. *)
Lemma float_of_int_not_between (n : Z) (t : float) :
  float_of_int n = Ret t → strictly_between_0_and_1 t = false.
Proof.
  unfold float_of_int, binary_normalize. destruct n as [|p|p].
  - intros [= <-]. reflexivity.
  - pose proof (binary_round_int false p) as H.
    destruct (binary_round prec emax false p 0) as [s|s| |s m e];
      [destruct H|discriminate|destruct H|].
    destruct H as [-> He]. intros [= <-].
    unfold strictly_between_0_and_1. rewrite SFltb_one; [apply andb_false_r|].
    change (2 ^ 52) with 4503599627370496 in He. exact He.
  - pose proof (binary_round_int true p) as H.
    destruct (binary_round prec emax true p 0) as [s|s| |s m e];
      [destruct H|discriminate|destruct H|].
    destruct H as [-> He]. intros [= <-]. reflexivity.
Qed.

End FloatOfInt.

Lemma accepted_is_float (v : json) (t : float) : accepted v = Some t → v = JFloat t.
Proof.
  destruct v as [ | |n|t'| | | ]; simpl; try discriminate.
  - destruct (float_of_int n) as [t'|] eqn:Hn; [|discriminate].
    by rewrite (float_of_int_not_between n t' Hn).
  - destruct (strictly_between_0_and_1 t'); congruence.
Qed.

Lemma persisted_threshold_is_float f key t :
  persisted_threshold f key = Some t →
  ∃ d, f = FileJson (JDict d) ∧ d !! key = Some (JFloat t).
Proof.
  unfold persisted_threshold. destruct f as [ | | | | | |[ | | | | | |d]]; try discriminate.
  destruct (d !! key) as [v|] eqn:Hv; [|discriminate]. simpl.
  intros Ha. apply accepted_is_float in Ha as ->. eauto.
Qed.

(** X14. A threshold that the resolver takes from the metadata file is a
    JSON float stored there: a [user_threshold] or [recommended_threshold]
    written as an integer or as [true] or [false] is never the answer,
    although [isinstance(..., (float, int))] lets it through. *)
Theorem metadata_threshold_is_json_float PRED_THRESHOLD f t src :
  _resolve_threshold_with_source PRED_THRESHOLD f = Ret (t, src) →
  (src = "metadata:user" →
     ∃ d, f = FileJson (JDict d) ∧ d !! "user_threshold" = Some (JFloat t))
  ∧ (src = "metadata:recommended" →
     ∃ d, f = FileJson (JDict d) ∧ d !! "recommended_threshold" = Some (JFloat t)).
Proof.
  intros H. apply resolve_follows_chain in H. revert H. unfold priority_chain.
  destruct (env_override PRED_THRESHOLD) as [te|];
    [intros [= -> ->]; split; discriminate|].
  destruct (persisted_threshold f "user_threshold") as [tu|] eqn:Hu.
  { intros [= -> ->]. split; [|discriminate].
    intros _. by apply persisted_threshold_is_float. }
  destruct (persisted_threshold f "recommended_threshold") as [tr|] eqn:Hr.
  { intros [= -> ->]. split; [discriminate|].
    intros _. by apply persisted_threshold_is_float. }
  intros [= -> ->]. split; discriminate.
Qed.

Lemma metadata_threshold_is_json_float_witness :
  ("metadata:recommended" = "metadata:user" →
     ∃ d, FileJson (JDict (<[ "user_threshold" := JInt 1 ]>
                             {[ "recommended_threshold" := JFloat f_0_55 ]}))
          = FileJson (JDict d) ∧ d !! "user_threshold" = Some (JFloat f_0_55))
  ∧ ("metadata:recommended" = "metadata:recommended" →
     ∃ d, FileJson (JDict (<[ "user_threshold" := JInt 1 ]>
                             {[ "recommended_threshold" := JFloat f_0_55 ]}))
          = FileJson (JDict d) ∧ d !! "recommended_threshold" = Some (JFloat f_0_55)).
Proof.
  apply (metadata_threshold_is_json_float None). vm_compute. reflexivity.
Defined.

(** ** What a training run leaves behind *)

(** X15. A training run touches the two files only after the fit: when
    the store afterwards differs from the store before, the fit had
    returned a report and the model file holds its artifact.  A missing
    data set, too few rows, a failing read, a failing fit and a model path
    without a directory part all leave the model and the metadata as they
    were. *)
Theorem train_from_csv_writes_after_fit
    (sklearn : DataFrame → outcome fit_report) (BASE_DIR : string)
    (files : string → csv_state) (path MODEL_PATH METADATA_PATH : string) (w : store) :
  (train_from_csv sklearn BASE_DIR files (Some path) MODEL_PATH METADATA_PATH w).1 = w
  ∨ ∃ df rep,
      files path = CsvFrame df
      ∧ (10 ≤ length (dropna_result df))%nat
      ∧ sklearn (dropna_result df) = Ret rep
      ∧ model_file
          (train_from_csv sklearn BASE_DIR files (Some path) MODEL_PATH METADATA_PATH w).1
        = Some (fitted rep).
Proof.
  unfold train_from_csv.
  destruct (files path) as [ | |df] eqn:Hfile; [by left | by left |].
  destruct (Nat.ltb_spec (length (dropna_result df)) 10) as [|Hlen]; [by left|].
  unfold train_model.
  destruct (sklearn (dropna_result df)) as [rep|e] eqn:Hfit; [|by left].
  destruct (os_makedirs (os_path_dirname MODEL_PATH)); [|by left].
  right. exists df, rep. split_and!; [reflexivity | exact Hlen | exact Hfit |].
  destruct (json_dump _); reflexivity.
Qed.

(** X16. A training run that gets past the fit, with a model path that
    has a directory part, ends the effect of the threshold an admin had
    set: afterwards the resolver, with no override in the environment,
    answers 0.6, and not from [user_threshold].  With a model path that is
    a bare file name the run writes nothing, and the resolver answers as
    before. *)
Theorem train_from_csv_resets_threshold
    (sklearn : DataFrame → outcome fit_report) (BASE_DIR : string)
    (files : string → csv_state) (path MODEL_PATH METADATA_PATH : string) (w : store)
    (df : DataFrame) (rep : fit_report) :
  files path = CsvFrame df →
  (10 ≤ length (dropna_result df))%nat →
  sklearn (dropna_result df) = Ret rep →
  (os_path_dirname MODEL_PATH ≠ "" →
   ∃ src,
     _resolve_threshold_with_source None
       (metadata_file
          (train_from_csv sklearn BASE_DIR files (Some path) MODEL_PATH METADATA_PATH w).1)
     = Ret (f_0_6, src)
     ∧ src ≠ "metadata:user")
  ∧ (os_path_dirname MODEL_PATH = "" →
     (train_from_csv sklearn BASE_DIR files (Some path) MODEL_PATH METADATA_PATH w).1 = w).
Proof.
  intros Hfile Hlen Hfit.
  rewrite (train_from_csv_enough_rows _ _ _ _ _ _ _ _ Hfile Hlen).
  rewrite (train_model_fitted _ _ _ _ _ _ Hfit (labels_enough_rows _ Hlen)).
  split; intros Hdir.
  - rewrite bool_decide_eq_false_2 by done.
    exists "default". split; [reflexivity | discriminate].
  - by rewrite bool_decide_eq_true_2.
Qed.

Lemma train_from_csv_resets_threshold_witness :
  (∃ src,
     _resolve_threshold_with_source None
       (metadata_file
          (train_from_csv (λ _, Ret sample_report) "/srv/backend"
             (sample_files twenty_rows)
             (Some "/srv/backend/data/student_data_sample.csv")
             sample_model_path sample_metadata_path
             {| model_file := None;
                metadata_file :=
                  FileJson (JDict {[ "user_threshold" := JFloat f_0_4 ]}) |}).1)
     = Ret (f_0_6, src)
     ∧ src ≠ "metadata:user")
  ∧ (train_from_csv (λ _, Ret sample_report) "/srv/backend"
       (sample_files twenty_rows)
       (Some "/srv/backend/data/student_data_sample.csv")
       bare_model_path sample_metadata_path
       {| model_file := None;
          metadata_file :=
            FileJson (JDict {[ "user_threshold" := JFloat f_0_4 ]}) |}).1
    = {| model_file := None;
         metadata_file := FileJson (JDict {[ "user_threshold" := JFloat f_0_4 ]}) |}.
Proof.
  assert (10 ≤ length (dropna_result twenty_rows))%nat as Hlen by (vm_compute; lia).
  split.
  - apply (train_from_csv_resets_threshold (λ _, Ret sample_report) "/srv/backend"
             (sample_files twenty_rows) "/srv/backend/data/student_data_sample.csv"
             sample_model_path sample_metadata_path _ twenty_rows sample_report
             eq_refl Hlen eq_refl).
    vm_compute. discriminate.
  - apply (train_from_csv_resets_threshold (λ _, Ret sample_report) "/srv/backend"
             (sample_files twenty_rows) "/srv/backend/data/student_data_sample.csv"
             bare_model_path sample_metadata_path _ twenty_rows sample_report
             eq_refl Hlen eq_refl).
    vm_compute. reflexivity.
Defined.
